(** * server.js: the database connection lifecycle of the tender tracker

    A shallow embedding of [src/server.js]: the three module variables
    [dbClient], [isConnected] and [connectionRetries], the asynchronous
    function [connectDB], the two API handlers, and [shutdown].

    JavaScript runs each function synchronously up to its next [await].
    The embedding follows that: an asynchronous function is cut at its
    [await]s, every piece is a state transformer that also emits the
    effects it performs, and the outcome of the awaited promise is an
    input of the next piece. *)

From stdpp Require Import gmap strings list.
From Stdlib Require Import ZArith Lia.

Open Scope string_scope.
Open Scope list_scope.
Open Scope nat_scope.

(** ** JavaScript values *)

#[warnings="-register-all"]
Inductive jsval : Type :=
| VUndefined
| VNull
| VBool (b : bool)
| VNum (n : Z)
| VStr (s : string)
| VArr (l : list jsval)
| VObj (o : gmap string jsval).

(** [!v] is [negb (truthy v)]. *)
Definition truthy (v : jsval) : bool :=
  match v with
  | VUndefined | VNull => false
  | VBool b => b
  | VNum n => negb (n =? 0)%Z
  | VStr s => negb (String.eqb s "")
  | VArr _ | VObj _ => true
  end.

(** [a || b] *)
Definition js_or (a b : jsval) : jsval := if truthy a then a else b.

(** [v === 'lit'] for a string literal. *)
Definition is_str (lit : string) (v : jsval) : bool :=
  match v with
  | VStr s => String.eqb s lit
  | _ => false
  end.

(** [process.env]: every variable that is set holds a string. *)
Definition environment : Type := gmap string string.

Definition getenv (env : environment) (k : string) : jsval :=
  match env !! k with
  | Some s => VStr s
  | None => VUndefined
  end.

(** What [catch (error)] binds: the three properties the code reads. *)
Record error : Type := Error {
  code : jsval;
  message : jsval;
  stack : jsval
}.

(** The [TypeError] of a property access on [null] or [undefined]; it has
    no [code]. *)
Definition TypeError (msg : string) : error :=
  {| code := VUndefined; message := VStr msg; stack := VStr "TypeError" |}.

(** How an awaited promise settles. *)
Inductive settled (A : Type) : Type :=
| Fulfilled (v : A)
| Rejected (e : error).
Arguments Fulfilled {A} v.
Arguments Rejected {A} e.

(** ** Module state (lines 19-23) *)

(** A [pg.Client] object, named by the order of its creation. *)
Definition client : Type := nat.

Record state : Type := State {
  dbClient : option client;        (* let dbClient = null *)
  isConnected : bool;              (* let isConnected = false *)
  connectionRetries : nat;         (* let connectionRetries = 0 *)
  clients : nat                    (* how many Client objects exist *)
}.

Definition MAX_RETRIES : nat := 5.
Definition RETRY_DELAY : nat := 5000.

Definition initial : state :=
  {| dbClient := None; isConnected := false; connectionRetries := 0;
     clients := 0 |}.

(** The connection-state triple of the specification. *)
Definition triple (s : state) : bool * nat * option client :=
  (isConnected s, connectionRetries s, dbClient s).

(** ** Effects *)

Inductive logline : Type :=
| CreatingClient                       (* line 26 *)
| ClosingExisting                      (* line 46 *)
| InitializingConnection               (* line 50 *)
| ConnectionDetails                    (* line 51 *)
| ConnectedOk                          (* line 62 *)
| ConnectionError (e : error)          (* line 65 *)
| ErrorDetails (e : error)             (* lines 66, 162 *)
| Retrying (n max ms : nat)            (* line 77 *)
| MaxRetriesReached                    (* line 81 *)
| HealthCheckFailed (e : error)        (* line 106 *)
| ExecutingQuery (text : jsval)        (* line 146 *)
| QueryParameters (params : jsval)     (* line 147 *)
| QueryExecuted                        (* line 150 *)
| QueryError (e : error)               (* line 161 *)
| ShuttingDown                         (* line 192 *)
| ConnectionClosed                     (* line 196 *)
| CloseError (e : error).              (* line 198 *)

Inductive event : Type :=
| Log (l : logline)                    (* console.log / console.error *)
| ClientNew (c : client)               (* new Client({...}) *)
| ClientEnd (c : client)               (* c.end() *)
| ClientConnect (c : client)           (* c.connect() *)
| ClientQuery (c : client) (text params : jsval)   (* c.query(text, params) *)
| SetTimeout (ms : nat)                (* setTimeout(resolve, ms) *)
| Detached                             (* connectDB() called, not awaited *)
| Respond (status : nat) (body : gmap string jsval)  (* res.status(..).json(..) *)
| ProcessExit (status : nat).          (* process.exit(..) *)

(** A piece of synchronous code: it reads and writes the module state and
    emits effects in order. *)
Definition M (A : Type) : Type := state -> A * state * list event.

Definition ret {A} (a : A) : M A := fun s => (a, s, []).

Definition bind {A B} (m : M A) (k : A -> M B) : M B :=
  fun s =>
    let '(a, s1, t1) := m s in
    let '(b, s2, t2) := k a s1 in
    (b, s2, t1 ++ t2).

Declare Scope js_scope.
Delimit Scope js_scope with js.
Notation "x <- m ;; k" := (bind m (fun x => k))
  (at level 100, m at next level, k at level 200, right associativity)
  : js_scope.
Notation "m ;; k" := (bind m (fun _ => k))
  (at level 100, k at level 200, right associativity) : js_scope.
Open Scope js_scope.

Definition read {A} (f : state -> A) : M A := fun s => (f s, s, []).
Definition emit (e : event) : M unit := fun s => (tt, s, [e]).
Definition log (l : logline) : M unit := emit (Log l).

Definition set_dbClient (v : option client) : M unit := fun s =>
  (tt, {| dbClient := v; isConnected := isConnected s;
          connectionRetries := connectionRetries s; clients := clients s |}, []).
Definition set_isConnected (v : bool) : M unit := fun s =>
  (tt, {| dbClient := dbClient s; isConnected := v;
          connectionRetries := connectionRetries s; clients := clients s |}, []).
Definition set_connectionRetries (v : nat) : M unit := fun s =>
  (tt, {| dbClient := dbClient s; isConnected := isConnected s;
          connectionRetries := v; clients := clients s |}, []).

(** [new Client({...})]: a client object distinct from all earlier ones. *)
Definition new_Client : M client := fun s =>
  (clients s,
   {| dbClient := dbClient s; isConnected := isConnected s;
      connectionRetries := connectionRetries s; clients := S (clients s) |},
   [ClientNew (clients s)]).

Definition value {A} (r : A * state * list event) : A := fst (fst r).
Definition after {A} (r : A * state * list event) : state := snd (fst r).
Definition effects {A} (r : A * state * list event) : list event := snd r.

(** ** connectDB (lines 25-85) *)

(** The three [await]s of [connectDB]. *)
Inductive await : Type :=
| AwaitEnd (c : client)        (* line 47: await dbClient.end().catch(() => {}) *)
| AwaitConnect (c : client)    (* line 59: await dbClient.connect() *)
| AwaitDelay.                  (* line 78: await new Promise(... setTimeout ...) *)

(** Where a call of [connectDB] stands: it has returned, or it is suspended
    at one of its [await]s. *)
Inductive status : Type :=
| Returned (b : bool)
| Suspended (a : await).

(** Lines 25-39. The connection parameters are read from [process.env] and
    passed to the client; no code of this file reads them back. *)
Definition createClient : M client :=
  log CreatingClient ;;
  new_Client.

(** Lines 50-59, up to the [await] of line 59. *)
Definition connectDB_open : M status :=
  log InitializingConnection ;;
  log ConnectionDetails ;;
  c <- createClient ;;
  set_dbClient (Some c) ;;
  emit (ClientConnect c) ;;
  ret (Suspended (AwaitConnect c)).

(** Lines 41-59: the call itself, up to its first [await]. *)
Definition connectDB : M status :=
  connected <- read isConnected ;;
  if connected then ret (Returned true)
  else
    cl <- read dbClient ;;
    match cl with
    | Some c =>
        log ClosingExisting ;;
        emit (ClientEnd c) ;;
        ret (Suspended (AwaitEnd c))
    | None => connectDB_open
    end.

(** Lines 60-63: [connect()] fulfilled. *)
Definition connectDB_connected : M status :=
  set_isConnected true ;;
  set_connectionRetries 0 ;;
  log ConnectedOk ;;
  ret (Returned true).

(** Lines 64-84: the [catch] block, up to the [await] of line 78. *)
Definition connectDB_catch (e : error) : M status :=
  log (ConnectionError e) ;;
  log (ErrorDetails e) ;;
  set_isConnected false ;;
  set_dbClient None ;;
  n <- read connectionRetries ;;
  if n <? MAX_RETRIES then
    set_connectionRetries (S n) ;;
    log (Retrying (S n) MAX_RETRIES RETRY_DELAY) ;;
    emit (SetTimeout RETRY_DELAY) ;;
    ret (Suspended AwaitDelay)
  else
    log MaxRetriesReached ;;
    ret (Returned false).

(** The code after each [await], given how the awaited promise settled.
    Line 47 swallows a rejection of [end()]; the timer of line 78 cannot
    reject; line 79 is a call of [connectDB] itself. *)
Definition connectDB_resume (a : await) (r : settled unit) : M status :=
  match a with
  | AwaitEnd _ => connectDB_open
  | AwaitConnect _ =>
      match r with
      | Fulfilled _ => connectDB_connected
      | Rejected e => connectDB_catch e
      end
  | AwaitDelay => connectDB
  end.

(** One call of [connectDB] followed to the end of the given outcomes:
    [outs] lists how the promises it awaits settle, in order. *)
Fixpoint connectDB_run (outs : list (settled unit))
    (r : status * state * list event) : status * state * list event :=
  match value r, outs with
  | Suspended a, o :: outs' =>
      let '(st, s', t') := connectDB_resume a o (after r) in
      connectDB_run outs' (st, s', effects r ++ t')
  | _, _ => r
  end.

(** A call [connectDB()] whose promise nobody awaits (lines 111 and 170):
    the callee runs up to its first [await] inside the caller; what is
    left of it is handed to the event loop. *)
Definition detached (task : M status) : M (list await) :=
  emit Detached ;;
  st <- task ;;
  ret (match st with
       | Suspended a => [a]
       | Returned _ => []
       end).

(** ** GET /api/health (lines 87-125)

    Line 87 stands for the head of the handler, which the file leaves out:
    the route registration and the opening of the outer [try]. *)

Record context : Type := Context {
  env : environment;               (* process.env *)
  uptime : jsval;                  (* process.uptime() *)
  timestamp : jsval;               (* new Date().toISOString(), line 91 *)
  timestamp_late : jsval           (* new Date().toISOString(), line 122 *)
}.

(** Line 12. *)
Definition PORT (ev : environment) : jsval :=
  js_or (getenv ev "PORT") (VNum 8080).

(** Where the handler itself throws, outside the inner [try] of the probe:
    while the document is built (lines 88-99) or when it is sent
    (line 116). *)
Inductive fault : Type :=
| NoFault
| ThrowsBuilding (e : error)
| ThrowsSending (e : error).

(** Lines 88-99. *)
Definition health_document (cx : context) (connected : bool)
    : gmap string jsval :=
  {[ "status" := VStr "healthy";
     "uptime" := uptime cx;
     "timestamp" := timestamp cx;
     "database" := VStr (if connected then "connected" else "disconnected");
     "environment" := VObj
       {[ "nodeEnv" := getenv (env cx) "NODE_ENV";
          "port" := PORT (env cx);
          "dbHost" := js_or (getenv (env cx) "PGHOST")
                            (getenv (env cx) "VITE_AZURE_DB_HOST");
          "dbName" := js_or (getenv (env cx) "PGDATABASE")
                            (getenv (env cx) "VITE_AZURE_DB_NAME") ]} ]}.

(** Lines 105-112. *)
Definition health_probe_failed (dbError : error) (health : gmap string jsval)
    : M (gmap string jsval * list await) :=
  log (HealthCheckFailed dbError) ;;
  let health := <["database" := VStr "error"]> health in
  let health := <["databaseError" := message dbError]> health in
  bg <- detached connectDB ;;
  ret (health, bg).

(** Lines 101-113; [probe] is how [SELECT 1] settles. *)
Definition health_probe (probe : settled unit) (health : gmap string jsval)
    : M (gmap string jsval * list await) :=
  connected <- read isConnected ;;
  if connected then
    cl <- read dbClient ;;
    match cl with
    | Some c =>
        emit (ClientQuery c (VStr "SELECT 1") VUndefined) ;;
        match probe with
        | Fulfilled _ => ret (<["database" := VStr "connected"]> health, [])
        | Rejected dbError => health_probe_failed dbError health
        end
    | None =>
        health_probe_failed
          (TypeError "Cannot read properties of null (reading 'query')")
          health
    end
  else ret (health, []).

(** Lines 117-124. *)
Definition health_fallback (cx : context) (e : error) : M unit :=
  emit (Respond 200 {[ "status" := VStr "degraded";
                       "error" := message e;
                       "timestamp" := timestamp_late cx ]}).

(** The handler; it returns what it left to the event loop. *)
Definition api_health (cx : context) (f : fault) (probe : settled unit)
    : M (list await) :=
  match f with
  | ThrowsBuilding e => health_fallback cx e ;; ret []
  | _ =>
      connected <- read isConnected ;;
      r <- health_probe probe (health_document cx connected) ;;
      match f with
      | ThrowsSending e => health_fallback cx e
      | _ => emit (Respond 200 (fst r))
      end ;;
      ret (snd r)
  end.

(** ** POST /api/query (lines 127-180) *)

(** What [dbClient.query] fulfils with, as far as the handler reads it. *)
Record result : Type := Result {
  rows : jsval;
  rowCount : jsval;
  fields : option (list (gmap string jsval))
}.

(** [o.k] on an object. *)
Definition prop (o : gmap string jsval) (k : string) : jsval :=
  match o !! k with
  | Some v => v
  | None => VUndefined
  end.

(** Line 137: [const { text, params } = req.body]. Destructuring
    [undefined] or [null] throws; any other value without the two
    properties yields [undefined] for both. *)
Definition destructure (body : jsval) : option (jsval * jsval) :=
  match body with
  | VUndefined | VNull => None
  | VObj o => Some (prop o "text", prop o "params")
  | _ => Some (VUndefined, VUndefined)
  end.

(** Line 168. *)
Definition fatal (e : error) : bool :=
  is_str "ECONNRESET" (code e) || is_str "57P01" (code e).

(** Lines 160-179: the [catch] block. *)
Definition query_catch (ev : environment) (e : error) : M (list await) :=
  log (QueryError e) ;;
  log (ErrorDetails e) ;;
  bg <- (if fatal e
         then set_isConnected false ;; detached connectDB
         else ret []) ;;
  emit (Respond 500
          {[ "error" := VBool true;
             "message" := message e;
             "code" := code e;
             "detail" := if is_str "development" (getenv ev "NODE_ENV")
                         then stack e else VUndefined ]}) ;;
  ret bg.

(** Lines 152-159. *)
Definition query_response (r : result) : gmap string jsval :=
  {[ "rows" := rows r;
     "rowCount" := rowCount r;
     "fields" := match fields r with
                 | Some fs =>
                     VArr (map (fun f => VObj {[ "name" := prop f "name";
                                                 "dataType" := prop f "dataTypeID" ]})
                               fs)
                 | None => VUndefined
                 end ]}.

(** The handler; [outcome] is how [dbClient.query(text, params)] settles. *)
Definition api_query (ev : environment) (body : jsval)
    (outcome : settled result) : M (list await) :=
  connected <- read isConnected ;;
  if negb connected then
    emit (Respond 503 {[ "error" := VBool true;
                         "message" := VStr "Database not connected" ]}) ;;
    ret []
  else
    match destructure body with
    | None =>
        query_catch ev
          (TypeError "Cannot destructure property 'text' of 'req.body'")
    | Some (text, params) =>
        if negb (truthy text) then
          emit (Respond 400 {[ "error" := VBool true;
                               "message" := VStr "Query text is required" ]}) ;;
          ret []
        else
          log (ExecutingQuery text) ;;
          log (QueryParameters params) ;;
          cl <- read dbClient ;;
          match cl with
          | None =>
              query_catch ev
                (TypeError "Cannot read properties of null (reading 'query')")
          | Some c =>
              emit (ClientQuery c text params) ;;
              match outcome with
              | Fulfilled r =>
                  log QueryExecuted ;;
                  emit (Respond 200 (query_response r)) ;;
                  ret []
              | Rejected e => query_catch ev e
              end
          end
    end.

(** ** shutdown (lines 190-205); [closing] is how [end()] settles. *)
Definition shutdown (closing : settled unit) : M unit :=
  log ShuttingDown ;;
  cl <- read dbClient ;;
  match cl with
  | Some c =>
      emit (ClientEnd c) ;;
      match closing with
      | Fulfilled _ => log ConnectionClosed
      | Rejected e => log (CloseError e)
      end
  | None => ret tt
  end ;;
  emit (ProcessExit 0).

(** ** The running server

    The event loop holds the calls of [connectDB] that are suspended at an
    [await]. Something occurs: a promise one of them awaits settles, a
    request arrives, or a termination signal does. A request is handled
    within one occurrence, the promise its handler awaits settling before
    anything else occurs; the suspended calls of [connectDB] advance
    between requests, one [await] at a time. *)

Record server : Type := Server {
  vars : state;
  history : list event;            (* every effect so far, oldest first *)
  suspended : list await;          (* the calls of connectDB in flight *)
  established : option client      (* whose connect() fulfilled last *)
}.

Inductive occurrence : Type :=
| Settles (i : nat) (r : settled unit)
| HealthRequest (cx : context) (f : fault) (probe : settled unit)
| QueryRequest (ev : environment) (body : jsval) (outcome : settled result)
| Signal (closing : settled unit).

Definition is_exit (e : event) : bool :=
  match e with
  | ProcessExit _ => true
  | _ => false
  end.

Definition exited (sv : server) : bool := existsb is_exit (history sv).

(** A handler ran: its effects join the history, what it detached joins
    the suspended calls. *)
Definition handled (sv : server) (r : list await * state * list event)
    : server :=
  {| vars := after r;
     history := history sv ++ effects r;
     suspended := suspended sv ++ value r;
     established := established sv |}.

Definition step (sv : server) (o : occurrence) : option server :=
  if exited sv then None
  else
    match o with
    | Settles i r =>
        match suspended sv !! i with
        | Some a =>
            let res := connectDB_resume a r (vars sv) in
            Some {| vars := after res;
                    history := history sv ++ effects res;
                    suspended :=
                      match value res with
                      | Suspended a' => <[i := a']> (suspended sv)
                      | Returned _ => delete i (suspended sv)
                      end;
                    established :=
                      match a, r with
                      | AwaitConnect c, Fulfilled _ => Some c
                      | _, _ => established sv
                      end |}
        | None => None
        end
    | HealthRequest cx f probe =>
        Some (handled sv (api_health cx f probe (vars sv)))
    | QueryRequest ev body outcome =>
        Some (handled sv (api_query ev body outcome (vars sv)))
    | Signal closing =>
        let res := shutdown closing (vars sv) in
        Some {| vars := after res;
                history := history sv ++ effects res;
                suspended := suspended sv;
                established := established sv |}
    end.

(** [startServer] (lines 207-240): the listener starts, then [connectDB]
    is called on the initial variables. The rest of [startServer] logs
    one line once that call has returned. *)
Definition boot : server :=
  let res := connectDB initial in
  {| vars := after res;
     history := effects res;
     suspended := match value res with
                  | Suspended a => [a]
                  | Returned _ => []
                  end;
     established := None |}.

Fixpoint run (sv : server) (os : list occurrence) : option server :=
  match os with
  | [] => Some sv
  | o :: os' =>
      match step sv o with
      | Some sv' => run sv' os'
      | None => None
      end
  end.


(** ** Vocabulary of the properties *)

(** The outcomes a call of [connectDB] sees when every attempt fails with
    the next error of [es] and every retry timer fires. *)
Definition failures (es : list error) : list (settled unit) :=
  match es with
  | [] => []
  | e :: es' =>
      Rejected e :: flat_map (fun e' => [Fulfilled tt; Rejected e']) es'
  end.

(** The outcomes a call of [connectDB] made in state [s] sees: when
    [dbClient] holds a stale client, first how its [end()] settles. *)
Definition from_start (s : state) (closed : settled unit)
    (outs : list (settled unit)) : list (settled unit) :=
  match dbClient s with
  | Some _ => closed :: outs
  | None => outs
  end.

(** The connection attempts and the timers among some effects. *)
Definition scheduling (e : event) : bool :=
  match e with
  | ClientConnect _ | SetTimeout _ => true
  | _ => false
  end.

Definition schedule (t : list event) : list event := List.filter scheduling t.

(** [n] attempts on fresh clients [c0], [c0 + 1], ..., each followed by
    the retry delay. *)
Definition attempts (c0 n : nat) : list event :=
  flat_map (fun c => [ClientConnect c; SetTimeout RETRY_DELAY]) (seq c0 n).

(** What a trace shows of each kind of effect. *)
Definition responses (t : list event) : list (nat * gmap string jsval) :=
  flat_map (fun e => match e with
                     | Respond st b => [(st, b)]
                     | _ => []
                     end) t.

Definition queries (t : list event) : list (client * jsval * jsval) :=
  flat_map (fun e => match e with
                     | ClientQuery c text params => [(c, text, params)]
                     | _ => []
                     end) t.

Definition is_detached (e : event) : bool :=
  match e with
  | Detached => true
  | _ => false
  end.

(** The calls of [connectDB] made without [await]. *)
Definition reconnects (t : list event) : nat :=
  length (List.filter is_detached t).

(** The effects that reach the database: creating, connecting, querying
    or closing a client. *)
Definition touches_database (e : event) : bool :=
  match e with
  | ClientNew _ | ClientEnd _ | ClientConnect _ | ClientQuery _ _ _ => true
  | _ => false
  end.

(** ** Sample inputs *)

Definition refused : error :=
  {| code := VStr "ECONNREFUSED";
     message := VStr "connect ECONNREFUSED";
     stack := VStr "Error: connect ECONNREFUSED" |}.

Definition reset : error :=
  {| code := VStr "ECONNRESET";
     message := VStr "read ECONNRESET";
     stack := VStr "Error: read ECONNRESET" |}.

Definition connected_state : state :=
  {| dbClient := Some 0; isConnected := true; connectionRetries := 0;
     clients := 1 |}.

Definition select_tenders : jsval :=
  VObj {[ "text" := VStr "SELECT * FROM tenders" ]}.

Definition empty_text : jsval := VObj {[ "text" := VStr "" ]}.

Definition no_rows : result :=
  {| rows := VArr []; rowCount := VNum 0; fields := Some [] |}.

Definition noon : context :=
  {| env := ∅; uptime := VNum 42;
     timestamp := VStr "2024-01-01T12:00:00.000Z";
     timestamp_late := VStr "2024-01-01T12:00:00.001Z" |}.

(** The [database] field the health handler reports. *)
Definition database_status (s : state) (probe : settled unit) : string :=
  if isConnected s then
    match dbClient s, probe with
    | Some _, Fulfilled _ => "connected"
    | _, _ => "error"
    end
  else "disconnected".




(** The server as some occurrences leave it. *)
Definition server_after (os : list occurrence) : server :=
  match run boot os with
  | Some sv => sv
  | None => boot
  end.

(** The first attempt has failed, the retry timer has fired, and the
    second attempt is in flight. *)
Definition second_attempt : list occurrence :=
  [Settles 0 (Rejected refused); Settles 0 (Fulfilled tt)].

(** ** Further vocabulary *)

(** The clients created, connected and closed in a trace, and the timers
    started, each in order. *)
Definition created (t : list event) : list client :=
  flat_map (fun e => match e with
                     | ClientNew c => [c]
                     | _ => []
                     end) t.

Definition attempted (t : list event) : list client :=
  flat_map (fun e => match e with
                     | ClientConnect c => [c]
                     | _ => []
                     end) t.

Definition ended (t : list event) : list client :=
  flat_map (fun e => match e with
                     | ClientEnd c => [c]
                     | _ => []
                     end) t.

Definition delays (t : list event) : list nat :=
  flat_map (fun e => match e with
                     | SetTimeout ms => [ms]
                     | _ => []
                     end) t.

(** The stale client a call of [connectDB] finds, if any. *)
Definition stale (s : state) : list client :=
  if isConnected s then []
  else match dbClient s with
       | Some c => [c]
       | None => []
       end.

(** The outcomes a call of [connectDB] sees when the attempts fail with
    the errors of [es], every retry timer fires, and the attempt after
    them succeeds. *)
Definition recovering (es : list error) : list (settled unit) :=
  flat_map (fun e => [Rejected e; Fulfilled tt]) es ++ [Fulfilled tt].

(** The body of the 500 response, lines 173-178. *)
Definition failure_body (ev : environment) (e : error) : gmap string jsval :=
  {[ "error" := VBool true;
     "message" := message e;
     "code" := code e;
     "detail" := if is_str "development" (getenv ev "NODE_ENV")
                 then stack e else VUndefined ]}.

(** What the handlers throw at themselves: [req.body] cannot be
    destructured, [dbClient] is [null]. *)
Definition no_body : error :=
  TypeError "Cannot destructure property 'text' of 'req.body'".

Definition no_client : error :=
  TypeError "Cannot read properties of null (reading 'query')".

(** * Properties *)

(** ** Equations of the pieces of connectDB *)

Lemma connectDB_when_connected s :
  isConnected s = true -> connectDB s = (Returned true, s, []).
Proof.
  intros H. unfold connectDB, bind, read, ret. cbn. rewrite H. reflexivity.
Qed.

Lemma connectDB_when_idle s :
  isConnected s = false -> dbClient s = None ->
  connectDB s =
    (Suspended (AwaitConnect (clients s)),
     {| dbClient := Some (clients s); isConnected := false;
        connectionRetries := connectionRetries s; clients := S (clients s) |},
     [Log InitializingConnection; Log ConnectionDetails; Log CreatingClient;
      ClientNew (clients s); ClientConnect (clients s)]).
Proof.
  intros Hc Hd. unfold connectDB, bind, read, ret. cbn. rewrite Hc, Hd.
  cbn. rewrite Hc. reflexivity.
Qed.

Lemma connectDB_when_stale s c :
  isConnected s = false -> dbClient s = Some c ->
  connectDB s =
    (Suspended (AwaitEnd c), s, [Log ClosingExisting; ClientEnd c]).
Proof.
  intros Hc Hd. unfold connectDB, bind, read, ret. cbn. rewrite Hc, Hd.
  reflexivity.
Qed.

Lemma connectDB_open_eq s :
  connectDB_open s =
    (Suspended (AwaitConnect (clients s)),
     {| dbClient := Some (clients s); isConnected := isConnected s;
        connectionRetries := connectionRetries s; clients := S (clients s) |},
     [Log InitializingConnection; Log ConnectionDetails; Log CreatingClient;
      ClientNew (clients s); ClientConnect (clients s)]).
Proof. reflexivity. Qed.

Lemma connectDB_connected_eq s :
  connectDB_connected s =
    (Returned true,
     {| dbClient := dbClient s; isConnected := true;
        connectionRetries := 0; clients := clients s |},
     [Log ConnectedOk]).
Proof. reflexivity. Qed.

Lemma connectDB_catch_retry e s :
  connectionRetries s < MAX_RETRIES ->
  connectDB_catch e s =
    (Suspended AwaitDelay,
     {| dbClient := None; isConnected := false;
        connectionRetries := S (connectionRetries s); clients := clients s |},
     [Log (ConnectionError e); Log (ErrorDetails e);
      Log (Retrying (S (connectionRetries s)) MAX_RETRIES RETRY_DELAY);
      SetTimeout RETRY_DELAY]).
Proof.
  intros H. apply Nat.ltb_lt in H.
  unfold connectDB_catch, bind, read, ret, log, emit. cbn -[Nat.ltb].
  rewrite H. reflexivity.
Qed.

Lemma connectDB_catch_exhausted e s :
  MAX_RETRIES <= connectionRetries s ->
  connectDB_catch e s =
    (Returned false,
     {| dbClient := None; isConnected := false;
        connectionRetries := connectionRetries s; clients := clients s |},
     [Log (ConnectionError e); Log (ErrorDetails e); Log MaxRetriesReached]).
Proof.
  intros H. apply Nat.ltb_ge in H.
  unfold connectDB_catch, bind, read, ret, log, emit. cbn -[Nat.ltb].
  rewrite H. reflexivity.
Qed.

(** ** Following one call of connectDB *)

Lemma connectDB_run_step o outs a s t :
  connectDB_run (o :: outs) (Suspended a, s, t) =
    connectDB_run outs
      (value (connectDB_resume a o s), after (connectDB_resume a o s),
       t ++ effects (connectDB_resume a o s)).
Proof.
  cbn [connectDB_run value after effects fst snd].
  destruct (connectDB_resume a o s) as [[st s'] t']. reflexivity.
Qed.

Lemma connectDB_run_returned outs b s t :
  connectDB_run outs (Returned b, s, t) = (Returned b, s, t).
Proof. destruct outs; reflexivity. Qed.

Lemma connectDB_run_app outs1 outs2 r :
  connectDB_run (outs1 ++ outs2) r =
    connectDB_run outs2 (connectDB_run outs1 r).
Proof.
  revert r. induction outs1 as [|o outs1 IH]; intros [[st s] t].
  - destruct st; reflexivity.
  - destruct st as [b|a].
    + cbn [app]. rewrite !connectDB_run_returned. reflexivity.
    + cbn [app]. rewrite !connectDB_run_step. apply IH.
Qed.

Lemma failures_cons e e' es :
  failures (e :: e' :: es) = Rejected e :: Fulfilled tt :: failures (e' :: es).
Proof. reflexivity. Qed.

Lemma failures_snoc es e :
  es <> [] -> failures (es ++ [e]) = failures es ++ [Fulfilled tt; Rejected e].
Proof.
  destruct es as [|e0 es]; [congruence|intros _].
  unfold failures. cbn [app]. rewrite flat_map_app. reflexivity.
Qed.

Lemma schedule_app t1 t2 : schedule (t1 ++ t2) = schedule t1 ++ schedule t2.
Proof. apply List.filter_app. Qed.

(** A chain of failed attempts, taken from an attempt in flight: as long
    as the counter stays within [MAX_RETRIES], every failure increments
    it, drops the client and starts the retry timer. *)
Lemma failing_chain es :
  forall c s t,
    es <> [] ->
    connectionRetries s + length es <= MAX_RETRIES ->
    exists s' t',
      connectDB_run (failures es) (Suspended (AwaitConnect c), s, t)
        = (Suspended AwaitDelay, s', t ++ t')
      /\ isConnected s' = false
      /\ dbClient s' = None
      /\ connectionRetries s' = connectionRetries s + length es
      /\ clients s' = clients s + (length es - 1)
      /\ schedule t' =
           SetTimeout RETRY_DELAY :: attempts (clients s) (length es - 1).
Proof.
  induction es as [|e es IH]; intros c s t Hne Hle; [congruence|].
  destruct es as [|e' es].
  - cbn [failures flat_map length] in *.
    rewrite connectDB_run_step. cbn [connectDB_resume].
    rewrite connectDB_catch_retry by lia.
    cbn [value after effects fst snd connectDB_run].
    eexists _, _. split; [reflexivity|]. cbn. repeat split; lia.
  - rewrite failures_cons. cbn [length] in Hle.
    rewrite connectDB_run_step. cbn [connectDB_resume].
    rewrite connectDB_catch_retry by lia.
    cbn [value after effects fst snd].
    rewrite connectDB_run_step. cbn [connectDB_resume].
    rewrite connectDB_when_idle by reflexivity.
    cbn [value after effects fst snd clients connectionRetries].
    edestruct (IH (clients s)) as (s' & t' & Hrun & Hc & Hd & Hr & Hn & Hs);
      [discriminate| |rewrite Hrun].
    { cbn [connectionRetries length] in *. lia. }
    cbn [connectionRetries clients length] in *.
    eexists _, _. split; [rewrite <- !app_assoc; reflexivity|].
    repeat split; try assumption; try lia.
    rewrite !schedule_app, Hs. cbn.
    replace (length es - 0) with (length es) by lia. reflexivity.
Qed.

(** ** Failing from a disconnected state *)

Lemma from_start_app s closed outs1 outs2 :
  from_start s closed (outs1 ++ outs2) = from_start s closed outs1 ++ outs2.
Proof. unfold from_start. destruct (dbClient s); reflexivity. Qed.

(** Whether or not a stale client has to be closed first, the call comes
    to its first attempt, on a fresh client. *)
Lemma connectDB_started s closed outs :
  isConnected s = false ->
  exists t,
    connectDB_run (from_start s closed outs) (connectDB s) =
      connectDB_run outs
        (Suspended (AwaitConnect (clients s)),
         {| dbClient := Some (clients s); isConnected := false;
            connectionRetries := connectionRetries s;
            clients := S (clients s) |}, t)
    /\ schedule t = [ClientConnect (clients s)].
Proof.
  intros Hc. unfold from_start. destruct (dbClient s) as [c|] eqn:Hd.
  - rewrite (connectDB_when_stale s c) by assumption.
    rewrite connectDB_run_step. cbn [connectDB_resume].
    rewrite connectDB_open_eq, Hc. cbn [value after effects fst snd].
    eexists. split; reflexivity.
  - rewrite connectDB_when_idle by assumption.
    eexists. split; reflexivity.
Qed.

Lemma disconnected_failing s closed es :
  isConnected s = false ->
  1 <= length es -> connectionRetries s + length es <= MAX_RETRIES ->
  exists s' t,
    connectDB_run (from_start s closed (failures es)) (connectDB s)
      = (Suspended AwaitDelay, s', t)
    /\ isConnected s' = false
    /\ dbClient s' = None
    /\ connectionRetries s' = connectionRetries s + length es
    /\ clients s' = clients s + length es
    /\ schedule t = attempts (clients s) (length es).
Proof.
  intros Hc Hlo Hhi.
  assert (Hne : es <> []) by (destruct es; cbn in Hlo; [lia|discriminate]).
  destruct (connectDB_started s closed (failures es) Hc) as (t0 & -> & Ht0).
  edestruct (failing_chain es (clients s)) as (s' & t' & Hrun & H);
    [exact Hne | | rewrite Hrun].
  { cbn [connectionRetries]. lia. }
  cbn [connectionRetries clients] in H.
  destruct H as (Hc' & Hd' & Hr' & Hn' & Hs').
  eexists _, _. split; [reflexivity|].
  do 3 (split; [assumption|]). split; [lia|].
  rewrite schedule_app, Ht0, Hs'.
  destruct (length es) as [|n]; [lia|].
  cbn [Nat.sub]. replace (n - 0) with n by lia. reflexivity.
Qed.

Lemma disconnected_at_max s closed e more :
  isConnected s = false ->
  MAX_RETRIES <= connectionRetries s ->
  exists t,
    connectDB_run (from_start s closed (Rejected e :: more)) (connectDB s) =
      (Returned false,
       {| dbClient := None; isConnected := false;
          connectionRetries := connectionRetries s;
          clients := S (clients s) |}, t)
    /\ schedule t = [ClientConnect (clients s)].
Proof.
  intros Hc Hr.
  destruct (connectDB_started s closed (Rejected e :: more) Hc)
    as (t0 & -> & Ht0).
  rewrite connectDB_run_step. cbn [connectDB_resume].
  rewrite connectDB_catch_exhausted by assumption.
  cbn [value after effects fst snd]. rewrite connectDB_run_returned.
  eexists. split; [reflexivity|].
  rewrite schedule_app, Ht0. reflexivity.
Qed.

Lemma disconnected_exhausted s closed es e more :
  isConnected s = false ->
  1 <= length es -> connectionRetries s + length es = MAX_RETRIES ->
  exists s' t,
    connectDB_run (from_start s closed (failures (es ++ [e]) ++ more))
        (connectDB s)
      = (Returned false, s', t)
    /\ isConnected s' = false
    /\ dbClient s' = None
    /\ connectionRetries s' = MAX_RETRIES
    /\ clients s' = clients s + S (length es)
    /\ schedule t =
         attempts (clients s) (length es)
           ++ [ClientConnect (clients s + length es)].
Proof.
  intros Hc Hlo Hhi.
  assert (Hne : es <> []) by (destruct es; cbn in Hlo; [lia|discriminate]).
  destruct (disconnected_failing s closed es)
    as (s1 & t1 & Hrun & Hc1 & Hd1 & Hr1 & Hn1 & Hs1);
    try assumption; [lia|].
  rewrite failures_snoc, <- app_assoc, from_start_app, connectDB_run_app, Hrun
    by assumption.
  cbn [app]. rewrite connectDB_run_step. cbn [connectDB_resume].
  rewrite connectDB_when_idle by assumption.
  cbn [value after effects fst snd].
  rewrite connectDB_run_step. cbn [connectDB_resume].
  rewrite connectDB_catch_exhausted by (cbn [connectionRetries]; lia).
  cbn [value after effects fst snd]. rewrite connectDB_run_returned.
  eexists _, _. split; [reflexivity|].
  cbn [isConnected dbClient connectionRetries clients].
  do 2 (split; [reflexivity|]). split; [lia|]. split; [lia|].
  rewrite !schedule_app, Hs1, Hn1. cbn. rewrite app_nil_r. reflexivity.
Qed.

(** ** C1: the bounded retry policy *)

(** C1. A call of [connectDB] made while [isConnected] is false and
    [connectionRetries] is 0, whose attempts all fail: after the N-th
    failure, for every [1 <= N <= MAX_RETRIES], the counter is N,
    [isConnected] is false, the client is dropped, and the call is
    suspended at the retry delay; the attempts and timers so far are N
    attempts on fresh clients, each followed by [setTimeout] of
    [RETRY_DELAY = 5000] ms; what runs when the timer fires is [connectDB]
    itself. When the counter has reached [MAX_RETRIES], the failure of
    the attempt after the last delay makes the call return [false] with
    the counter unchanged and no timer started: whatever settles later,
    this call does nothing more. *)
Theorem connectDB_bounded_retry (s : state) (closed : settled unit)
    (es : list error) :
  isConnected s = false -> connectionRetries s = 0 ->
  1 <= length es <= MAX_RETRIES ->
  let r := connectDB_run (from_start s closed (failures es)) (connectDB s) in
  connectionRetries (after r) = length es
  /\ isConnected (after r) = false
  /\ dbClient (after r) = None
  /\ value r = Suspended AwaitDelay
  /\ schedule (effects r) = attempts (clients s) (length es)
  /\ RETRY_DELAY = 5000
  /\ connectDB_resume AwaitDelay (Fulfilled tt) (after r) = connectDB (after r)
  /\ (length es = MAX_RETRIES ->
      forall (e : error) (more : list (settled unit)),
        let r' :=
          connectDB_run (from_start s closed (failures (es ++ [e]) ++ more))
            (connectDB s) in
        value r' = Returned false
        /\ connectionRetries (after r') = MAX_RETRIES
        /\ isConnected (after r') = false
        /\ dbClient (after r') = None
        /\ schedule (effects r') =
             attempts (clients s) MAX_RETRIES
               ++ [ClientConnect (clients s + MAX_RETRIES)]).
Proof.
  intros Hc H0 [Hlo Hhi] r. subst r.
  destruct (disconnected_failing s closed es)
    as (s' & t & Hrun & Hc' & Hd' & Hr' & _ & Hs');
    try assumption; [lia|].
  rewrite Hrun. cbn [value after effects fst snd].
  do 7 (split; [first [assumption | lia | reflexivity]|]).
  intros Hmax e more.
  destruct (disconnected_exhausted s closed es e more)
    as (s2 & t2 & Hrun2 & Hc2 & Hd2 & Hr2 & _ & Hs2);
    try assumption; [lia|].
  rewrite Hrun2. cbn [value after effects fst snd].
  rewrite <- Hmax. repeat split; try assumption; lia.
Qed.

Lemma connectDB_bounded_retry_witness :
  let es := repeat refused MAX_RETRIES in
  let r := connectDB_run (failures es) (connectDB initial) in
  connectionRetries (after r) = 5
  /\ isConnected (after r) = false
  /\ value (connectDB_run (failures (es ++ [refused])) (connectDB initial))
       = Returned false.
Proof.
  intros es r.
  destruct (connectDB_bounded_retry initial (Fulfilled tt) es)
    as (Hn & Hc & _ & _ & _ & _ & _ & Hlast);
    [reflexivity | reflexivity | unfold es, MAX_RETRIES; cbn; lia |].
  split; [exact Hn|]. split; [exact Hc|].
  destruct (Hlast eq_refl refused []) as (Hv & _).
  unfold from_start in Hv. cbn [dbClient initial] in Hv.
  rewrite app_nil_r in Hv. exact Hv.
Defined.

(** ** The query handler *)

Lemma api_query_disconnected ev body outcome s :
  isConnected s = false ->
  api_query ev body outcome s =
    ([], s, [Respond 503 {[ "error" := VBool true;
                            "message" := VStr "Database not connected" ]}]).
Proof.
  intros H. unfold api_query, bind, read. rewrite H. reflexivity.
Qed.

Lemma api_query_falsy_text ev body text params outcome s :
  isConnected s = true ->
  destructure body = Some (text, params) ->
  truthy text = false ->
  api_query ev body outcome s =
    ([], s, [Respond 400 {[ "error" := VBool true;
                            "message" := VStr "Query text is required" ]}]).
Proof.
  intros H Hb Ht. unfold api_query, bind, read. rewrite H, Hb, Ht.
  reflexivity.
Qed.

Lemma query_catch_fatal ev e s c :
  fatal e = true -> dbClient s = Some c ->
  query_catch ev e s =
    ([AwaitEnd c],
     {| dbClient := Some c; isConnected := false;
        connectionRetries := connectionRetries s; clients := clients s |},
     [Log (QueryError e); Log (ErrorDetails e); Detached;
      Log ClosingExisting; ClientEnd c;
      Respond 500
        {[ "error" := VBool true;
           "message" := message e;
           "code" := code e;
           "detail" := if is_str "development" (getenv ev "NODE_ENV")
                       then stack e else VUndefined ]}]).
Proof.
  intros Hf Hd. unfold query_catch, bind, log, emit. rewrite Hf.
  unfold detached, set_isConnected, bind, emit.
  rewrite connectDB_when_stale with (c := c) by (cbn; auto).
  cbn [dbClient]. rewrite Hd. reflexivity.
Qed.

Lemma query_catch_other ev e s :
  fatal e = false ->
  query_catch ev e s =
    ([], s,
     [Log (QueryError e); Log (ErrorDetails e);
      Respond 500
        {[ "error" := VBool true;
           "message" := message e;
           "code" := code e;
           "detail" := if is_str "development" (getenv ev "NODE_ENV")
                       then stack e else VUndefined ]}]).
Proof.
  intros Hf. unfold query_catch, bind, log, emit. rewrite Hf. reflexivity.
Qed.

Lemma api_query_rejected ev body text params e s c :
  isConnected s = true -> dbClient s = Some c ->
  destructure body = Some (text, params) -> truthy text = true ->
  api_query ev body (Rejected e) s =
    (value (query_catch ev e s), after (query_catch ev e s),
     [Log (ExecutingQuery text); Log (QueryParameters params);
      ClientQuery c text params] ++ effects (query_catch ev e s)).
Proof.
  intros H Hd Hb Ht. unfold api_query, bind, read, log, emit.
  rewrite H, Hb, Ht. cbn [negb]. rewrite Hd.
  destruct (query_catch ev e s) as [[bg s'] t']. reflexivity.
Qed.

(** C2. A query that was executed and rejected with a connection-fatal
    error ([ECONNRESET] or [57P01]): [isConnected] is false afterwards,
    [connectDB] was called exactly once without [await], that call is
    still in flight (suspended at closing the old client) when the handler
    is done, and the last thing the handler did was to answer 500 with the
    error's own message and code. *)
Theorem fatal_query_error (ev : environment) (body text params : jsval)
    (e : error) (s : state) (c : client) :
  isConnected s = true -> dbClient s = Some c ->
  destructure body = Some (text, params) -> truthy text = true ->
  fatal e = true ->
  let r := api_query ev body (Rejected e) s in
  queries (effects r) = [(c, text, params)]
  /\ isConnected (after r) = false
  /\ reconnects (effects r) = 1
  /\ value r = [AwaitEnd c]
  /\ exists b,
       responses (effects r) = [(500, b)]
       /\ last (effects r) = Some (Respond 500 b)
       /\ b !! "error" = Some (VBool true)
       /\ b !! "message" = Some (message e)
       /\ b !! "code" = Some (code e).
Proof.
  intros H Hd Hb Ht Hf r. subst r.
  rewrite (api_query_rejected ev body text params e s c) by assumption.
  rewrite (query_catch_fatal ev e s c) by assumption.
  cbn [value after effects fst snd app isConnected].
  do 4 (split; [reflexivity|]).
  eexists. split; [reflexivity|]. split; [reflexivity|].
  split; [reflexivity|]. split; reflexivity.
Qed.

Lemma fatal_query_error_witness :
  let r := api_query ∅ select_tenders (Rejected reset) connected_state in
  isConnected (after r) = false
  /\ reconnects (effects r) = 1
  /\ value r = [AwaitEnd 0]
  /\ map fst (responses (effects r)) = [500].
Proof.
  intros r.
  destruct (fatal_query_error ∅ select_tenders
              (VStr "SELECT * FROM tenders") VUndefined reset
              connected_state 0)
    as (_ & Hc & Hn & Hv & b & Hr & _);
    [reflexivity | reflexivity | reflexivity | reflexivity | reflexivity |].
  fold r in Hc, Hn, Hv, Hr.
  split; [exact Hc|]. split; [exact Hn|]. split; [exact Hv|].
  rewrite Hr. reflexivity.
Defined.

(** C5. A query request that finds [isConnected] false is answered at
    once with 503 and the body [{error: true, message: 'Database not
    connected'}]: that response is the handler's only effect, so no client
    is created, connected, queried or closed, [connectDB] is not called,
    and the variables are unchanged. *)
Theorem query_while_disconnected (ev : environment) (body : jsval)
    (outcome : settled result) (s : state) :
  isConnected s = false ->
  let r := api_query ev body outcome s in
  effects r =
    [Respond 503 {[ "error" := VBool true;
                    "message" := VStr "Database not connected" ]}]
  /\ List.filter touches_database (effects r) = []
  /\ reconnects (effects r) = 0
  /\ value r = []
  /\ after r = s.
Proof.
  intros H r. subst r. rewrite api_query_disconnected by assumption.
  repeat split.
Qed.

Lemma query_while_disconnected_witness :
  let r := api_query ∅ select_tenders (Fulfilled no_rows) initial in
  map fst (responses (effects r)) = [503]
  /\ List.filter touches_database (effects r) = []
  /\ after r = initial.
Proof.
  intros r.
  destruct (query_while_disconnected ∅ select_tenders (Fulfilled no_rows)
              initial) as (He & Hq & _ & _ & Hs); [reflexivity|].
  fold r in He, Hq, Hs.
  split; [rewrite He; reflexivity|]. split; [exact Hq | exact Hs].
Defined.

(** C8, as the code has it. A query request whose body has [text] equal
    to the empty string leaves the variables unchanged and detaches
    nothing; it is answered 400 [{error: true, message: 'Query text is
    required'}] when [isConnected] is true, and 503 [{error: true,
    message: 'Database not connected'}] when it is false, because the
    connection check of line 129 comes before the body is read. *)
Theorem empty_text_request (ev : environment) (o : gmap string jsval)
    (outcome : settled result) (s : state) :
  o !! "text" = Some (VStr "") ->
  let r := api_query ev (VObj o) outcome s in
  effects r =
    [if isConnected s
     then Respond 400 {[ "error" := VBool true;
                         "message" := VStr "Query text is required" ]}
     else Respond 503 {[ "error" := VBool true;
                         "message" := VStr "Database not connected" ]}]
  /\ triple (after r) = triple s
  /\ after r = s
  /\ value r = [].
Proof.
  intros Ho r. subst r. destruct (isConnected s) eqn:H.
  - rewrite (api_query_falsy_text ev (VObj o) (VStr "") (prop o "params"))
      by (try assumption; try reflexivity;
          cbn [destructure]; unfold prop at 1; rewrite Ho; reflexivity).
    repeat split.
  - rewrite api_query_disconnected by assumption. repeat split.
Qed.

Lemma empty_text_request_witness :
  let r := api_query ∅ empty_text (Fulfilled no_rows) connected_state in
  map fst (responses (effects r)) = [400]
  /\ triple (after r) = triple connected_state.
Proof.
  intros r.
  destruct (empty_text_request ∅ {[ "text" := VStr "" ]} (Fulfilled no_rows)
              connected_state) as (He & Ht & _); [reflexivity|].
  fold empty_text in He, Ht. fold r in He, Ht.
  split; [rewrite He; reflexivity | exact Ht].
Defined.

(** C8 fails as stated: with [isConnected] false, the request with
    [text: ""] is answered 503, not 400. *)
Lemma empty_text_while_disconnected :
  let r := api_query ∅ empty_text (Fulfilled no_rows) initial in
  map fst (responses (effects r)) = [503]
  /\ ~ (exists b, responses (effects r) = [(400, b)]).
Proof.
  split; [reflexivity|]. intros [b Hb]. cbn in Hb. discriminate Hb.
Qed.

(** ** The health handler *)

Lemma api_health_disconnected cx probe s :
  isConnected s = false ->
  api_health cx NoFault probe s =
    ([], s, [Respond 200 (health_document cx false)]).
Proof.
  intros H. unfold api_health, health_probe, bind, read, ret, emit.
  rewrite H. reflexivity.
Qed.

Lemma api_health_probe_ok cx v s c :
  isConnected s = true -> dbClient s = Some c ->
  api_health cx NoFault (Fulfilled v) s =
    ([], s,
     [ClientQuery c (VStr "SELECT 1") VUndefined;
      Respond 200 (<["database" := VStr "connected"]>
                     (health_document cx true))]).
Proof.
  intros H Hd. unfold api_health, health_probe, bind, read, ret, emit.
  rewrite H, Hd. reflexivity.
Qed.

Lemma health_probe_failed_eq e doc s :
  isConnected s = true ->
  health_probe_failed e doc s =
    ((<["databaseError" := message e]> (<["database" := VStr "error"]> doc),
      []), s,
     [Log (HealthCheckFailed e); Detached]).
Proof.
  intros H. unfold health_probe_failed, detached, bind, log, emit, ret.
  rewrite connectDB_when_connected by assumption. reflexivity.
Qed.

Lemma api_health_probe_rejected cx e s c :
  isConnected s = true -> dbClient s = Some c ->
  api_health cx NoFault (Rejected e) s =
    ([], s,
     [ClientQuery c (VStr "SELECT 1") VUndefined;
      Log (HealthCheckFailed e); Detached;
      Respond 200 (<["databaseError" := message e]>
                     (<["database" := VStr "error"]>
                        (health_document cx true)))]).
Proof.
  intros H Hd. unfold api_health, health_probe, bind, read, ret, emit.
  rewrite H, Hd. rewrite health_probe_failed_eq by assumption. reflexivity.
Qed.

Lemma health_document_lookup cx b k :
  k <> "database" ->
  health_document cx b !! k = health_document cx true !! k.
Proof.
  intros Hk. unfold health_document.
  destruct (decide (k = "status")) as [->|H1]; [reflexivity|].
  rewrite !(lookup_insert_ne _ "status") by congruence.
  destruct (decide (k = "uptime")) as [->|H2]; [reflexivity|].
  rewrite !(lookup_insert_ne _ "uptime") by congruence.
  destruct (decide (k = "timestamp")) as [->|H3]; [reflexivity|].
  rewrite !(lookup_insert_ne _ "timestamp") by congruence.
  rewrite !(lookup_insert_ne _ "database") by congruence.
  reflexivity.
Qed.

(** Whatever the state, the fault and the probe, the handler answers
    once, with status 200. *)
Lemma api_health_responds cx f probe s :
  exists doc,
    responses (effects (api_health cx f probe s)) = [(200, doc)]
    /\ match f with
       | NoFault =>
           doc !! "status" = Some (VStr "healthy")
           /\ doc !! "database" = Some (VStr (database_status s probe))
       | _ =>
           doc !! "status" = Some (VStr "degraded")
           /\ doc !! "database" = None
       end.
Proof.
  destruct f as [|e|e].
  - destruct (isConnected s) eqn:H.
    + destruct (dbClient s) as [c|] eqn:Hd.
      * destruct probe as [v|e].
        -- rewrite (api_health_probe_ok cx v s c) by assumption.
           eexists. split; [reflexivity|].
           unfold database_status. rewrite H, Hd. split; reflexivity.
        -- rewrite (api_health_probe_rejected cx e s c) by assumption.
           eexists. split; [reflexivity|].
           unfold database_status. rewrite H, Hd. split; reflexivity.
      * unfold api_health, health_probe, bind, read, ret, emit.
        rewrite H, Hd. rewrite health_probe_failed_eq by assumption.
        eexists. split; [reflexivity|].
        unfold database_status. rewrite H, Hd. split; reflexivity.
    + rewrite api_health_disconnected by assumption.
      eexists. split; [reflexivity|].
      unfold database_status. rewrite H. split; reflexivity.
  - eexists. split; [reflexivity|]. split; reflexivity.
  - unfold api_health, bind, read.
    destruct (health_probe probe (health_document cx (isConnected s)) s)
      as [[r s'] t] eqn:Hp.
    assert (Hr : responses t = []).
    { unfold health_probe, bind, read, ret, emit in Hp.
      destruct (isConnected s) eqn:H.
      - destruct (dbClient s) as [c|]; [destruct probe as [v|e']|];
          try rewrite health_probe_failed_eq in Hp by assumption;
          inversion Hp; reflexivity.
      - inversion Hp; reflexivity. }
    eexists. unfold health_fallback, emit, ret.
    cbn [effects snd app]. unfold responses in *.
    rewrite !flat_map_app, Hr. split; [reflexivity|]. split; reflexivity.
Qed.

(** C10. The handler's one response carries a document whose [status]
    is decided by the handler's own fault alone: ['healthy'] whenever the
    handler does not throw, whatever the [database] field says
    (['connected'], ['disconnected'] or ['error'], as the state and the
    probe have it), and ['degraded'] exactly in the fallback document sent
    when the handler throws, which has no [database] field. *)
Theorem health_status_ignores_database (cx : context) (f : fault)
    (probe : settled unit) (s : state) :
  exists doc,
    responses (effects (api_health cx f probe s)) = [(200, doc)]
    /\ doc !! "status" =
         Some (VStr match f with
                    | NoFault => "healthy"
                    | _ => "degraded"
                    end)
    /\ doc !! "database" =
         match f with
         | NoFault =>
             Some (VStr (if isConnected s then
                           match dbClient s, probe with
                           | Some _, Fulfilled _ => "connected"
                           | _, _ => "error"
                           end
                         else "disconnected"))
         | _ => None
         end.
Proof.
  destruct (api_health_responds cx f probe s) as (doc & Hr & Hdoc).
  exists doc. split; [exact Hr|].
  destruct f; destruct Hdoc as [Hs Hd]; split; assumption.
Qed.

(** C6, as the code has it. Every health request is answered with status
    200, also when the handler itself throws, in which case the body is
    the fallback document with [status: 'degraded']. Of the three cases
    (a) connected and the probe succeeds, (b) disconnected, (c) connected
    and the probe fails, handled in the same context, the bodies agree on
    every field other than [database] and [databaseError]: [database] is
    ['connected'], ['disconnected'], ['error'], and [databaseError] is
    present in case (c) only, where it holds the probe's error message. *)
Theorem health_always_200 (cx : context) (f : fault) (probe : settled unit)
    (s : state) (sa sb sc : state) (ca cc : client) (v : unit) (e : error) :
  isConnected sa = true -> dbClient sa = Some ca ->
  isConnected sb = false ->
  isConnected sc = true -> dbClient sc = Some cc ->
  map fst (responses (effects (api_health cx f probe s))) = [200]
  /\ (f <> NoFault ->
      exists d,
        responses (effects (api_health cx f probe s)) = [(200, d)]
        /\ d !! "status" = Some (VStr "degraded"))
  /\ exists a b c,
       responses (effects (api_health cx NoFault (Fulfilled v) sa))
         = [(200, a)]
       /\ responses (effects (api_health cx NoFault probe sb)) = [(200, b)]
       /\ responses (effects (api_health cx NoFault (Rejected e) sc))
            = [(200, c)]
       /\ (forall k, k <> "database" -> k <> "databaseError" ->
             a !! k = b !! k /\ b !! k = c !! k)
       /\ a !! "database" = Some (VStr "connected")
       /\ b !! "database" = Some (VStr "disconnected")
       /\ c !! "database" = Some (VStr "error")
       /\ a !! "databaseError" = None
       /\ b !! "databaseError" = None
       /\ c !! "databaseError" = Some (message e).
Proof.
  intros Ha Hca Hb Hc Hcc.
  destruct (api_health_responds cx f probe s) as (doc & Hr & Hdoc).
  split; [rewrite Hr; reflexivity|]. split.
  { intros Hf. exists doc. split; [exact Hr|].
    destruct f; [congruence| |]; apply Hdoc. }
  rewrite (api_health_probe_ok cx v sa ca) by assumption.
  rewrite (api_health_disconnected cx probe sb) by assumption.
  rewrite (api_health_probe_rejected cx e sc cc) by assumption.
  eexists _, _, _. do 3 (split; [reflexivity|]).
  split; [|repeat split; reflexivity].
  intros k Hk Hk'.
  rewrite !lookup_insert_ne by congruence.
  rewrite (health_document_lookup cx false k Hk). split; reflexivity.
Qed.

Lemma health_always_200_witness :
  map fst (responses
             (effects (api_health noon NoFault (Rejected reset)
                         connected_state))) = [200]
  /\ map fst (responses
                (effects (api_health noon (ThrowsSending refused)
                            (Fulfilled tt) initial))) = [200].
Proof.
  split.
  - apply (health_always_200 noon NoFault (Rejected reset) connected_state
             connected_state initial connected_state 0 0 tt reset);
      reflexivity.
  - apply (health_always_200 noon (ThrowsSending refused) (Fulfilled tt)
             initial connected_state initial connected_state 0 0 tt reset);
      reflexivity.
Defined.

(** C6 fails as stated: between case (a) and case (c) the bodies differ in
    a field that is neither [status] nor [database], namely
    [databaseError]. *)
Lemma health_bodies_differ_in_databaseError :
  exists a c,
    responses (effects (api_health noon NoFault (Fulfilled tt)
                          connected_state)) = [(200, a)]
    /\ responses (effects (api_health noon NoFault (Rejected reset)
                             connected_state)) = [(200, c)]
    /\ a !! "databaseError" = None
    /\ c !! "databaseError" = Some (VStr "read ECONNRESET")
    /\ a !! "databaseError" <> c !! "databaseError".
Proof.
  eexists _, _. split; [reflexivity|]. split; [reflexivity|].
  split; [reflexivity|]. split; [reflexivity|]. discriminate.
Qed.

(** C7. With no fault of the handler's own: when [isConnected] is true
    and [dbClient] holds a client, exactly one query is issued, [SELECT 1]
    on that client; if it is rejected, the document sent has [database:
    'error'] and [databaseError] equal to the error's message, and
    [connectDB] is called once without [await] before the response is
    sent, leaving nothing in flight to wait for. When [isConnected] is
    false, the document has [database: 'disconnected'] and no query is
    issued, nor [connectDB] called. *)
Theorem health_probe_postcondition (cx : context) (probe : settled unit)
    (s : state) :
  let r := api_health cx NoFault probe s in
  (isConnected s = true ->
   forall c, dbClient s = Some c ->
     queries (effects r) = [(c, VStr "SELECT 1", VUndefined)]
     /\ forall e, probe = Rejected e ->
          exists doc,
            effects r = [ClientQuery c (VStr "SELECT 1") VUndefined;
                         Log (HealthCheckFailed e); Detached;
                         Respond 200 doc]
            /\ doc !! "database" = Some (VStr "error")
            /\ doc !! "databaseError" = Some (message e)
            /\ reconnects (effects r) = 1
            /\ value r = [])
  /\ (isConnected s = false ->
      queries (effects r) = []
      /\ reconnects (effects r) = 0
      /\ exists doc,
           effects r = [Respond 200 doc]
           /\ doc !! "database" = Some (VStr "disconnected")).
Proof.
  intros r. subst r. split.
  - intros H c Hd. destruct probe as [v|e].
    + rewrite (api_health_probe_ok cx v s c) by assumption.
      split; [reflexivity|]. intros e He. discriminate He.
    + rewrite (api_health_probe_rejected cx e s c) by assumption.
      split; [reflexivity|]. intros e' He. injection He as <-.
      eexists. split; [reflexivity|]. repeat split; reflexivity.
  - intros H. rewrite api_health_disconnected by assumption.
    split; [reflexivity|]. split; [reflexivity|].
    eexists. split; reflexivity.
Qed.

Lemma health_probe_postcondition_witness :
  let r := api_health noon NoFault (Rejected reset) connected_state in
  queries (effects r) = [(0, VStr "SELECT 1", VUndefined)]
  /\ reconnects (effects r) = 1
  /\ queries (effects (api_health noon NoFault (Rejected reset) initial))
       = [].
Proof.
  intros r.
  destruct (health_probe_postcondition noon (Rejected reset)
              connected_state) as [Hconn _].
  destruct (Hconn eq_refl 0 eq_refl) as (Hq & Hfail).
  destruct (Hfail reset eq_refl) as (doc & _ & _ & _ & Hn & _).
  destruct (health_probe_postcondition noon (Rejected reset) initial)
    as [_ Hdisc].
  destruct (Hdisc eq_refl) as (Hq' & _).
  split; [exact Hq|]. split; [exact Hn | exact Hq'].
Defined.

(** ** shutdown *)

Lemma shutdown_eq closing s :
  shutdown closing s =
    (tt, s,
     Log ShuttingDown ::
     match dbClient s with
     | Some c =>
         [ClientEnd c;
          Log match closing with
              | Fulfilled _ => ConnectionClosed
              | Rejected e => CloseError e
              end]
     | None => []
     end ++ [ProcessExit 0]).
Proof.
  unfold shutdown, bind, read, log, emit, ret.
  destruct (dbClient s) as [c|]; [destruct closing|]; reflexivity.
Qed.

Lemma step_exited sv o : exited sv = true -> step sv o = None.
Proof. intros H. unfold step. rewrite H. reflexivity. Qed.

(** C9, as the code has it. On a termination signal, [shutdown] calls
    [end()] on the client held by [dbClient] if there is one, leaves
    [isConnected], [connectionRetries] and [dbClient] as they are, and
    calls [process.exit(0)] as its last effect whether [end()] was
    fulfilled or rejected; after that nothing more occurs in the server. *)
Theorem shutdown_exits_zero (closing : settled unit) (sv : server) :
  exited sv = false ->
  exists sv',
    step sv (Signal closing) = Some sv'
    /\ vars sv' = vars sv
    /\ suspended sv' = suspended sv
    /\ history sv' = history sv ++ effects (shutdown closing (vars sv))
    /\ List.filter touches_database (effects (shutdown closing (vars sv)))
         = match dbClient (vars sv) with
           | Some c => [ClientEnd c]
           | None => []
           end
    /\ last (history sv') = Some (ProcessExit 0)
    /\ forall o, step sv' o = None.
Proof.
  intros H. eexists. split; [unfold step; rewrite H; reflexivity|].
  cbn [vars suspended history]. rewrite shutdown_eq.
  cbn [after effects fst snd].
  do 3 (split; [reflexivity|]).
  split; [destruct (dbClient (vars sv)); reflexivity|].
  split.
  - rewrite app_comm_cons, app_assoc. apply last_snoc.
  - intros o. apply step_exited. unfold exited. cbn [history].
    rewrite existsb_app. cbn [existsb is_exit orb].
    rewrite existsb_app. cbn [existsb is_exit].
    rewrite !orb_true_r. reflexivity.
Qed.

Lemma shutdown_exits_zero_witness :
  exists sv',
    step boot (Signal (Rejected refused)) = Some sv'
    /\ vars sv' = vars boot
    /\ last (history sv') = Some (ProcessExit 0)
    /\ step sv' (Signal (Fulfilled tt)) = None.
Proof.
  destruct (shutdown_exits_zero (Rejected refused) boot eq_refl)
    as (sv' & Hstep & Hv & _ & _ & _ & Hl & Hn).
  exists sv'. repeat split; [exact Hstep | exact Hv | exact Hl | apply Hn].
Defined.

(** C9 fails as stated: [shutdown] does not set the state to
    Disconnected; run while connected, it leaves [isConnected] true. *)
Lemma shutdown_leaves_isConnected :
  isConnected (after (shutdown (Fulfilled tt) connected_state)) = true
  /\ isConnected (after (shutdown (Fulfilled tt) connected_state)) <> false.
Proof. split; [reflexivity | discriminate]. Qed.

(** ** What each handler does to the variables *)

Lemma api_health_frame cx f probe s :
  after (api_health cx f probe s) = s /\ value (api_health cx f probe s) = [].
Proof.
  assert (Hp : forall doc,
            after (health_probe probe doc s) = s
            /\ snd (value (health_probe probe doc s)) = []).
  { intros doc. unfold health_probe, bind, read, ret, emit.
    destruct (isConnected s) eqn:H; [|split; reflexivity].
    destruct (dbClient s) as [c|]; [destruct probe as [v|e]|];
      try rewrite health_probe_failed_eq by assumption;
      split; reflexivity. }
  destruct f as [|e|e]; [| split; reflexivity |];
    unfold api_health, bind, read;
    specialize (Hp (health_document cx (isConnected s)));
    destruct (health_probe probe (health_document cx (isConnected s)) s)
      as [[[doc bg] s'] t];
    cbn [value after fst snd] in Hp; destruct Hp as [-> ->];
    split; reflexivity.
Qed.

Lemma query_catch_frame ev e s :
  (after (query_catch ev e s) = s /\ value (query_catch ev e s) = [])
  \/ (fatal e = true /\
      exists c,
        dbClient s = Some c
        /\ value (query_catch ev e s) = [AwaitEnd c]
        /\ after (query_catch ev e s) =
             {| dbClient := Some c; isConnected := false;
                connectionRetries := connectionRetries s;
                clients := clients s |})
  \/ (fatal e = true /\ dbClient s = None
      /\ value (query_catch ev e s) = [AwaitConnect (clients s)]
      /\ after (query_catch ev e s) =
           {| dbClient := Some (clients s); isConnected := false;
              connectionRetries := connectionRetries s;
              clients := S (clients s) |}).
Proof.
  destruct (fatal e) eqn:Hf.
  - destruct (dbClient s) as [c|] eqn:Hd.
    + right; left. split; [reflexivity|]. exists c. split; [reflexivity|].
      rewrite (query_catch_fatal ev e s c) by assumption.
      split; reflexivity.
    + right; right. split; [reflexivity|]. split; [reflexivity|].
      unfold query_catch, bind, log, emit. rewrite Hf.
      unfold detached, set_isConnected, bind, emit.
      rewrite connectDB_when_idle by (cbn; auto).
      split; reflexivity.
  - left. rewrite query_catch_other by assumption. split; reflexivity.
Qed.

Lemma api_query_frame ev body outcome s :
  (after (api_query ev body outcome s) = s
   /\ value (api_query ev body outcome s) = [])
  \/ (isConnected s = true /\
      exists c,
        dbClient s = Some c
        /\ value (api_query ev body outcome s) = [AwaitEnd c]
        /\ after (api_query ev body outcome s) =
             {| dbClient := Some c; isConnected := false;
                connectionRetries := connectionRetries s;
                clients := clients s |}).
Proof.
  destruct (isConnected s) eqn:H.
  2: { left. rewrite api_query_disconnected by assumption.
       split; reflexivity. }
  unfold api_query, bind, read, log, emit. rewrite H. cbn [negb].
  destruct (destructure body) as [[text params]|].
  - destruct (truthy text); cbn [negb]; [|left; split; reflexivity].
    destruct (dbClient s) as [c|] eqn:Hd.
    + destruct outcome as [r|e]; [left; split; reflexivity|].
      destruct (query_catch_frame ev e s)
        as [[Ha Hv] | [(Hf & c' & Hc' & Hv & Ha) | (_ & Hn & _)]];
        [| |congruence];
        destruct (query_catch ev e s) as [[bg s'] t];
        cbn [value after fst snd] in *; subst.
      * left. split; reflexivity.
      * right. split; [reflexivity|]. exists c'.
        split; [congruence|]. split; reflexivity.
    + left.
      set (e := TypeError "Cannot read properties of null (reading 'query')").
      rewrite (query_catch_other ev e s) by reflexivity.
      split; reflexivity.
  - left.
    set (e := TypeError "Cannot destructure property 'text' of 'req.body'").
    rewrite (query_catch_other ev e s) by reflexivity.
    split; reflexivity.
Qed.

(** ** The server keeps [supervised] *)









(** ** C4: what resets the counter *)

Lemma connectDB_retries s :
  connectionRetries (after (connectDB s)) = connectionRetries s.
Proof.
  destruct (isConnected s) eqn:Hc.
  - rewrite connectDB_when_connected by assumption. reflexivity.
  - destruct (dbClient s) as [c|] eqn:Hd.
    + rewrite (connectDB_when_stale s c) by assumption. reflexivity.
    + rewrite connectDB_when_idle by assumption. reflexivity.
Qed.

Lemma connectDB_resume_retries a r s :
  connectionRetries s <= connectionRetries (after (connectDB_resume a r s))
  \/ exists c v, a = AwaitConnect c /\ r = Fulfilled v.
Proof.
  destruct a as [c|c|]; cbn [connectDB_resume].
  - left. rewrite connectDB_open_eq. reflexivity.
  - destruct r as [v|e]; [right; eauto|left].
    destruct (Nat.lt_ge_cases (connectionRetries s) MAX_RETRIES).
    + rewrite connectDB_catch_retry by assumption. cbn. lia.
    + rewrite connectDB_catch_exhausted by assumption. cbn. lia.
  - left. rewrite connectDB_retries. reflexivity.
Qed.

Lemma step_retries sv o sv' :
  step sv o = Some sv' ->
  connectionRetries (vars sv') < connectionRetries (vars sv) ->
  connectionRetries (vars sv') = 0
  /\ exists i c v,
       o = Settles i (Fulfilled v)
       /\ suspended sv !! i = Some (AwaitConnect c).
Proof.
  intros Hstep Hlt. unfold step in Hstep.
  destruct (exited sv); [discriminate|].
  destruct o as [i r|cx f probe|ev body outcome|closing].
  - destruct (suspended sv !! i) as [a|] eqn:Hi; [|discriminate].
    injection Hstep as <-. cbn [vars] in *.
    destruct (connectDB_resume_retries a r (vars sv))
      as [Hle | (c & v & -> & ->)]; [lia|].
    split; [reflexivity|]. eauto.
  - injection Hstep as <-. unfold handled in Hlt. cbn [vars] in Hlt.
    destruct (api_health_frame cx f probe (vars sv)) as [Ha _].
    rewrite Ha in Hlt. lia.
  - injection Hstep as <-. unfold handled in Hlt. cbn [vars] in Hlt.
    destruct (api_query_frame ev body outcome (vars sv))
      as [[Ha _] | (_ & c & _ & _ & Ha)];
      rewrite Ha in Hlt; cbn in Hlt; lia.
  - injection Hstep as <-. rewrite shutdown_eq in Hlt. cbn in Hlt. lia.
Qed.

(** C4. When [connect()] is fulfilled, [connectDB] returns [true] with
    [connectionRetries = 0], whatever the counter was. No other
    occurrence in the server lowers the counter: a step after which it is
    smaller is the fulfilment of an awaited [connect()], and leaves it at
    0. Exhaustion does not reset it: after [MAX_RETRIES + 1] failures in
    a row of a call made while disconnected with counter 0, the call has
    returned [false] with the counter at [MAX_RETRIES] and the client
    dropped; a later call of [connectDB]
    whose attempt fails returns [false] after that single attempt, with
    no timer started and the counter still at [MAX_RETRIES]. *)
Theorem retries_reset_only_by_success
    (s : state) (c : client) (v : unit)
    (sv sv' : server) (o : occurrence)
    (s0 : state) (closed : settled unit) (es : list error) (e : error) :
  (let r := connectDB_resume (AwaitConnect c) (Fulfilled v) s in
   value r = Returned true
   /\ isConnected (after r) = true
   /\ connectionRetries (after r) = 0)
  /\ (step sv o = Some sv' ->
      connectionRetries (vars sv') < connectionRetries (vars sv) ->
      connectionRetries (vars sv') = 0
      /\ exists i c' v',
           o = Settles i (Fulfilled v')
           /\ suspended sv !! i = Some (AwaitConnect c'))
  /\ (isConnected s0 = false -> connectionRetries s0 = 0 ->
      length es = S MAX_RETRIES ->
      let r1 :=
        connectDB_run (from_start s0 closed (failures es)) (connectDB s0) in
      let r2 := connectDB_run [Rejected e] (connectDB (after r1)) in
      value r1 = Returned false
      /\ connectionRetries (after r1) = MAX_RETRIES
      /\ dbClient (after r1) = None
      /\ value r2 = Returned false
      /\ connectionRetries (after r2) = MAX_RETRIES
      /\ schedule (effects r2) = [ClientConnect (clients (after r1))]).
Proof.
  split; [repeat split|]. split; [apply step_retries|].
  intros Hc H0 Hlen r1 r2.
  destruct (exists_last (l := es)) as (es' & e' & ->);
    [destruct es; [discriminate Hlen | discriminate]|].
  rewrite length_app in Hlen. cbn in Hlen.
  destruct (disconnected_exhausted s0 closed es' e' [])
    as (s1 & t1 & Hrun & Hc1 & Hd1 & Hr1 & _);
    try assumption; [unfold MAX_RETRIES in *; lia | lia |].
  rewrite app_nil_r in Hrun. subst r2 r1. rewrite Hrun.
  cbn [value after effects fst snd].
  destruct (disconnected_at_max s1 closed e []) as (t2 & Hrun2 & Hs2);
    try assumption; [lia|].
  unfold from_start in Hrun2. rewrite Hd1 in Hrun2.
  rewrite Hrun2. cbn [value after effects fst snd connectionRetries].
  repeat split; assumption.
Qed.

Lemma retries_reset_only_by_success_witness :
  let sv := server_after second_attempt in
  let sv' := server_after (second_attempt ++ [Settles 0 (Fulfilled tt)]) in
  step sv (Settles 0 (Fulfilled tt)) = Some sv'
  /\ connectionRetries (vars sv) = 1
  /\ connectionRetries (vars sv') = 0
  /\ connectionRetries
       (after (connectDB_run (failures (repeat refused 6))
                 (connectDB initial))) = MAX_RETRIES.
Proof.
  intros sv sv'.
  destruct (retries_reset_only_by_success initial 0 tt sv sv'
              (Settles 0 (Fulfilled tt)) initial (Fulfilled tt)
              (repeat refused 6) refused)
    as (_ & Hstep & Hex).
  destruct (Hstep eq_refl) as [H0 _]; [vm_compute; lia|].
  destruct (Hex eq_refl eq_refl eq_refl) as (_ & Hmax & _).
  split; [reflexivity|]. split; [reflexivity|].
  split; [exact H0 | exact Hmax].
Defined.

(** * Further properties of connectDB *)

Lemma attempted_app t1 t2 : attempted (t1 ++ t2) = attempted t1 ++ attempted t2.
Proof. apply flat_map_app. Qed.

Lemma ended_app t1 t2 : ended (t1 ++ t2) = ended t1 ++ ended t2.
Proof. apply flat_map_app. Qed.

Lemma delays_app t1 t2 : delays (t1 ++ t2) = delays t1 ++ delays t2.
Proof. apply flat_map_app. Qed.

Lemma attempted_schedule t : attempted (schedule t) = attempted t.
Proof.
  unfold attempted, schedule. induction t as [|e t IH]; [reflexivity|].
  destruct e; cbn; congruence.
Qed.

Lemma delays_schedule t : delays (schedule t) = delays t.
Proof.
  unfold delays, schedule. induction t as [|e t IH]; [reflexivity|].
  destruct e; cbn; congruence.
Qed.

Lemma attempted_attempts c0 n : attempted (attempts c0 n) = seq c0 n.
Proof.
  revert c0. induction n as [|n IH]; intros c0; [reflexivity|].
  change (attempts c0 (S n))
    with ([ClientConnect c0; SetTimeout RETRY_DELAY] ++ attempts (S c0) n).
  rewrite attempted_app, IH. reflexivity.
Qed.

Lemma delays_attempts c0 n : delays (attempts c0 n) = repeat RETRY_DELAY n.
Proof.
  revert c0. induction n as [|n IH]; intros c0; [reflexivity|].
  change (attempts c0 (S n))
    with ([ClientConnect c0; SetTimeout RETRY_DELAY] ++ attempts (S c0) n).
  rewrite delays_app, IH. reflexivity.
Qed.

Lemma list_sum_repeat d n : list_sum (repeat d n) = n * d.
Proof.
  induction n as [|n IH]; [reflexivity|].
  cbn [repeat list_sum fold_right] in *. unfold list_sum in IH.
  rewrite IH. lia.
Qed.

(** An attempt in flight: whatever the outcomes, the call returns once
    enough of them have settled, and makes at most one further attempt
    for each retry the counter still allows. *)
Lemma attempt_returns n :
  forall c s t outs,
    MAX_RETRIES - connectionRetries s <= n ->
    2 * (MAX_RETRIES - connectionRetries s) + 1 <= length outs ->
    exists b s' d,
      connectDB_run outs (Suspended (AwaitConnect c), s, t)
        = (Returned b, s', t ++ d)
      /\ isConnected s' = b
      /\ length (attempted d) <= MAX_RETRIES - connectionRetries s.
Proof.
  induction n as [|n IH]; intros c s t outs Hn Hlen;
    (destruct outs as [|o outs]; [cbn [length] in Hlen; lia|]);
    rewrite connectDB_run_step; cbn [connectDB_resume];
    (destruct o as [v|e];
     [rewrite connectDB_connected_eq; cbn [value after effects fst snd];
      rewrite connectDB_run_returned;
      eexists _, _, _; split; [reflexivity|]; split; [reflexivity|];
      cbn [attempted flat_map app length]; lia|]).
  - rewrite connectDB_catch_exhausted by lia.
    cbn [value after effects fst snd]. rewrite connectDB_run_returned.
    eexists _, _, _. split; [reflexivity|]. split; [reflexivity|].
    cbn [attempted flat_map app length]. lia.
  - destruct (Nat.lt_ge_cases (connectionRetries s) MAX_RETRIES) as [Hlt|Hge].
    + rewrite connectDB_catch_retry by assumption.
      cbn [value after effects fst snd].
      destruct outs as [|o2 outs]; [cbn [length] in Hlen; lia|].
      rewrite connectDB_run_step. cbn [connectDB_resume].
      rewrite connectDB_when_idle by reflexivity.
      cbn [value after effects fst snd clients connectionRetries].
      edestruct (IH (clients s)) as (b & s' & d & Hrun & Hb & Hd);
        [| |rewrite Hrun].
      { cbn [connectionRetries]. lia. }
      { cbn [connectionRetries length] in *. lia. }
      cbn [connectionRetries] in Hd.
      eexists _, _, _. split; [rewrite <- !app_assoc; reflexivity|].
      split; [assumption|].
      rewrite !attempted_app, !length_app.
      cbn [attempted flat_map app length]. lia.
    + rewrite connectDB_catch_exhausted by assumption.
      cbn [value after effects fst snd]. rewrite connectDB_run_returned.
      eexists _, _, _. split; [reflexivity|]. split; [reflexivity|].
    cbn [attempted flat_map app length]. lia.
Qed.

(** X1. Whatever state it is called in and however the promises it
    awaits settle, a call of [connectDB] has returned once
    [2 * (MAX_RETRIES - connectionRetries) + 2] of them have settled; it
    returns the final value of [isConnected], and it has made at most
    [MAX_RETRIES - connectionRetries + 1] connection attempts. *)
Theorem connectDB_returns (s : state) (outs : list (settled unit)) :
  2 * (MAX_RETRIES - connectionRetries s) + 2 <= length outs ->
  let r := connectDB_run outs (connectDB s) in
  exists b,
    value r = Returned b
    /\ isConnected (after r) = b
    /\ length (attempted (effects r))
         <= S (MAX_RETRIES - connectionRetries s).
Proof.
  intros Hlen r. subst r. destruct (isConnected s) eqn:Hc.
  - rewrite connectDB_when_connected by assumption.
    rewrite connectDB_run_returned. exists true.
    split; [reflexivity|]. split; [assumption|].
    cbn [attempted flat_map app length effects snd]. lia.
  - destruct (dbClient s) as [c|] eqn:Hd.
    + rewrite (connectDB_when_stale s c) by assumption.
      destruct outs as [|o outs]; [cbn [length] in Hlen; lia|].
      rewrite connectDB_run_step. cbn [connectDB_resume].
      rewrite connectDB_open_eq. cbn [value after effects fst snd].
      edestruct (attempt_returns (MAX_RETRIES - connectionRetries s))
        as (b & s' & d & Hrun & Hb & Hn); [| |rewrite Hrun].
      { cbn [connectionRetries]. lia. }
      { cbn [connectionRetries length] in *. lia. }
      cbn [connectionRetries] in Hn.
      exists b. cbn [value after effects fst snd].
      split; [reflexivity|]. split; [assumption|].
      rewrite !attempted_app, !length_app.
      cbn [attempted flat_map app length]. lia.
    + rewrite connectDB_when_idle by assumption.
      edestruct (attempt_returns (MAX_RETRIES - connectionRetries s))
        as (b & s' & d & Hrun & Hb & Hn); [| |rewrite Hrun].
      { cbn [connectionRetries]. lia. }
      { cbn [connectionRetries length] in *. lia. }
      cbn [connectionRetries] in Hn.
      exists b. cbn [value after effects fst snd].
      split; [reflexivity|]. split; [assumption|].
      rewrite !attempted_app, !length_app.
      cbn [attempted flat_map app length]. lia.
Qed.

Lemma connectDB_returns_witness :
  exists b,
    value (connectDB_run [Fulfilled tt; Rejected reset]
             (connectDB {| dbClient := Some 3; isConnected := false;
                           connectionRetries := 5; clients := 4 |}))
      = Returned b.
Proof.
  destruct (connectDB_returns
              {| dbClient := Some 3; isConnected := false;
                 connectionRetries := 5; clients := 4 |}
              [Fulfilled tt; Rejected reset]) as (b & Hb & _);
    [cbn; lia|].
  exists b. exact Hb.
Defined.

(** X2. The retry budget is what the counter leaves of it. A call of
    [connectDB] made while disconnected with the counter at [k <=
    MAX_RETRIES], whose attempts all fail, makes exactly [MAX_RETRIES - k
    + 1] attempts, each on a client of its own, waits [RETRY_DELAY]
    before each but the first, [(MAX_RETRIES - k) * 5000] ms in all, and
    returns [false] with the counter at [MAX_RETRIES]. *)
Theorem retry_budget (s : state) (closed : settled unit) (es : list error) :
  isConnected s = false ->
  connectionRetries s <= MAX_RETRIES ->
  length es = S (MAX_RETRIES - connectionRetries s) ->
  let r := connectDB_run (from_start s closed (failures es)) (connectDB s) in
  value r = Returned false
  /\ isConnected (after r) = false
  /\ dbClient (after r) = None
  /\ connectionRetries (after r) = MAX_RETRIES
  /\ attempted (effects r) = seq (clients s) (length es)
  /\ delays (effects r) = repeat RETRY_DELAY (length es - 1)
  /\ list_sum (delays (effects r))
       = (MAX_RETRIES - connectionRetries s) * 5000.
Proof.
  intros Hc Hk Hlen r. subst r.
  destruct (exists_last (l := es)) as (es' & e & ->);
    [destruct es; [discriminate Hlen | discriminate]|].
  rewrite length_app in Hlen |- *. cbn [length] in Hlen |- *.
  replace (length es' + 1 - 1) with (length es') by lia.
  assert (Hsum : forall t n,
             delays t = repeat RETRY_DELAY n -> list_sum (delays t) = n * 5000).
  { intros t n ->. apply list_sum_repeat. }
  destruct es' as [|e0 es'].
  - cbn [app failures flat_map length] in *.
    destruct (disconnected_at_max s closed e []) as (t & Hrun & Hs);
      [assumption | lia |].
    rewrite Hrun. cbn [value after effects fst snd
                         isConnected dbClient connectionRetries].
    assert (Ha : attempted t = [clients s])
      by (rewrite <- attempted_schedule, Hs; reflexivity).
    assert (Hd : delays t = [])
      by (rewrite <- delays_schedule, Hs; reflexivity).
    repeat split; try assumption; try reflexivity; try lia.
    rewrite Hd. change (list_sum []) with 0. lia.
  - destruct (disconnected_exhausted s closed (e0 :: es') e [])
      as (s' & t & Hrun & Hc' & Hd' & Hr' & _ & Hs);
      [assumption | cbn [length]; lia | cbn [length] in *; lia |].
    rewrite app_nil_r in Hrun. rewrite Hrun.
    cbn [value after effects fst snd].
    assert (Ha : attempted t
                 = seq (clients s) (length (e0 :: es') + 1)).
    { rewrite <- attempted_schedule, Hs, attempted_app, attempted_attempts.
      rewrite seq_app. reflexivity. }
    assert (Hd : delays t = repeat RETRY_DELAY (length (e0 :: es'))).
    { rewrite <- delays_schedule, Hs, delays_app, delays_attempts.
      apply app_nil_r. }
    do 4 (split; [first [assumption | reflexivity]|]).
    split; [exact Ha|]. split; [exact Hd|].
    rewrite (Hsum t _ Hd). cbn [length] in *. lia.
Qed.

Lemma retry_budget_witness :
  let s := {| dbClient := Some 7; isConnected := false;
              connectionRetries := 3; clients := 8 |} in
  let r := connectDB_run
             (Rejected refused ::
              failures [reset; refused; reset]) (connectDB s) in
  value r = Returned false
  /\ attempted (effects r) = [8; 9; 10]
  /\ list_sum (delays (effects r)) = 2 * 5000.
Proof.
  intros s r.
  destruct (retry_budget s (Rejected refused) [reset; refused; reset])
    as (Hv & _ & _ & _ & Ha & _ & Hd);
    [reflexivity | cbn; unfold MAX_RETRIES; lia | reflexivity |].
  split; [exact Hv|]. split; [exact Ha | exact Hd].
Defined.

Lemma recovering_shift es :
  Fulfilled tt :: flat_map (fun e => [Rejected e; Fulfilled tt]) es
  = flat_map (fun e => [Fulfilled tt; @Rejected unit e]) es ++ [Fulfilled tt].
Proof.
  induction es as [|e es IH]; [reflexivity|].
  cbn [flat_map app]. rewrite IH. reflexivity.
Qed.

Lemma recovering_failures es :
  es <> [] -> recovering es = failures es ++ [Fulfilled tt; Fulfilled tt].
Proof.
  destruct es as [|e es]; [congruence|intros _].
  unfold recovering, failures. cbn [flat_map app]. f_equal.
  rewrite app_comm_cons, recovering_shift, <- app_assoc. reflexivity.
Qed.

(** X3. If the database comes up within the retry budget, the call
    connects. A call of [connectDB] made while disconnected, whose first
    attempts fail with the errors of [es], no more of them than the
    counter allows, and whose next attempt succeeds, returns [true] with
    [isConnected] true, the counter back at 0 and [dbClient] holding the
    client of the successful attempt, the last one created; it has waited
    [RETRY_DELAY] once for each failure. *)
Theorem connects_within_budget (s : state) (closed : settled unit)
    (es : list error) :
  isConnected s = false ->
  connectionRetries s + length es <= MAX_RETRIES ->
  let r := connectDB_run (from_start s closed (recovering es)) (connectDB s) in
  value r = Returned true
  /\ isConnected (after r) = true
  /\ connectionRetries (after r) = 0
  /\ dbClient (after r) = Some (clients s + length es)
  /\ clients (after r) = S (clients s + length es)
  /\ attempted (effects r) = seq (clients s) (S (length es))
  /\ delays (effects r) = repeat RETRY_DELAY (length es).
Proof.
  intros Hc Hk r. subst r. destruct es as [|e0 es'].
  - destruct (connectDB_started s closed (recovering []) Hc) as (t & -> & Ht).
    unfold recovering. cbn [flat_map app].
    rewrite connectDB_run_step. cbn [connectDB_resume].
    rewrite connectDB_connected_eq. cbn [value after effects fst snd].
    rewrite connectDB_run_returned.
    cbn [value after effects fst snd isConnected connectionRetries dbClient
           clients length].
    rewrite Nat.add_0_r.
    do 5 (split; [reflexivity|]).
    rewrite attempted_app, delays_app, <- attempted_schedule,
      <- delays_schedule, Ht. split; reflexivity.
  - set (es := e0 :: es') in *.
    assert (Hne : es <> []) by discriminate.
    destruct (disconnected_failing s closed es)
      as (s1 & t1 & Hrun & Hc1 & Hd1 & Hr1 & Hn1 & Hs1);
      [assumption | subst es; cbn [length]; lia | assumption |].
    rewrite recovering_failures, from_start_app, connectDB_run_app, Hrun
      by assumption.
    rewrite connectDB_run_step. cbn [connectDB_resume].
    rewrite connectDB_when_idle by assumption.
    cbn [value after effects fst snd].
    rewrite connectDB_run_step. cbn [connectDB_resume].
    rewrite connectDB_connected_eq. cbn [value after effects fst snd].
    rewrite connectDB_run_returned.
    cbn [value after effects fst snd isConnected connectionRetries dbClient
           clients].
    rewrite Hn1. do 5 (split; [reflexivity|]).
    rewrite !attempted_app, !delays_app.
    rewrite <- (attempted_schedule t1), <- (delays_schedule t1), Hs1.
    rewrite attempted_attempts, delays_attempts.
    cbn [attempted delays flat_map app]. rewrite !app_nil_r.
    split; [rewrite seq_S; reflexivity | reflexivity].
Qed.

Lemma connects_within_budget_witness :
  let r := connectDB_run (recovering [refused; refused]) (connectDB initial) in
  value r = Returned true
  /\ dbClient (after r) = Some 2
  /\ connectionRetries (after r) = 0
  /\ delays (effects r) = [5000; 5000].
Proof.
  intros r.
  destruct (connects_within_budget initial (Fulfilled tt) [refused; refused])
    as (Hv & _ & Hr & Hd & _ & _ & Ht);
    [reflexivity | cbn; unfold MAX_RETRIES; lia |].
  split; [exact Hv|]. split; [exact Hd|]. split; [exact Hr | exact Ht].
Defined.

Lemma run_ends_nothing outs :
  forall st s t,
    match st with
    | Suspended AwaitDelay => isConnected s = false /\ dbClient s = None
    | _ => True
    end ->
    ended (effects (connectDB_run outs (st, s, t))) = ended t.
Proof.
  induction outs as [|o outs IH]; intros st s t Hst.
  - destruct st; reflexivity.
  - destruct st as [b|a]; [rewrite connectDB_run_returned; reflexivity|].
    rewrite connectDB_run_step. destruct a as [c|c|]; cbn [connectDB_resume].
    + rewrite connectDB_open_eq. cbn [value after effects fst snd].
      rewrite IH by exact I. rewrite ended_app. apply app_nil_r.
    + destruct o as [v|e].
      * rewrite connectDB_connected_eq. cbn [value after effects fst snd].
        rewrite IH by exact I. rewrite ended_app. apply app_nil_r.
      * destruct (Nat.lt_ge_cases (connectionRetries s) MAX_RETRIES).
        -- rewrite connectDB_catch_retry by assumption.
           cbn [value after effects fst snd].
           rewrite IH by (split; reflexivity).
           rewrite ended_app. apply app_nil_r.
        -- rewrite connectDB_catch_exhausted by assumption.
           cbn [value after effects fst snd].
           rewrite IH by exact I. rewrite ended_app. apply app_nil_r.
    + destruct Hst as [Hc Hd]. rewrite connectDB_when_idle by assumption.
      cbn [value after effects fst snd].
      rewrite IH by exact I. rewrite ended_app. apply app_nil_r.
Qed.

(** X4. A call of [connectDB] closes nothing but the stale client it
    finds on entry: however far the call gets and however its promises
    settle, the only [end()] it calls is on the client [dbClient] held
    when it was called while disconnected. The clients it creates are
    never closed by it, also when their [connect()] fails. *)
Theorem connectDB_ends_only_stale (s : state) (outs : list (settled unit)) :
  ended (effects (connectDB_run outs (connectDB s))) = stale s.
Proof.
  unfold stale. destruct (isConnected s) eqn:Hc.
  - rewrite connectDB_when_connected by assumption.
    rewrite connectDB_run_returned. reflexivity.
  - destruct (dbClient s) as [c|] eqn:Hd.
    + rewrite (connectDB_when_stale s c) by assumption.
      rewrite run_ends_nothing by exact I. reflexivity.
    + rewrite connectDB_when_idle by assumption.
      rewrite run_ends_nothing by exact I. reflexivity.
Qed.

(** * Further properties of the query handler *)

Lemma query_catch_responses ev e s :
  responses (effects (query_catch ev e s)) = [(500, failure_body ev e)]
  /\ queries (effects (query_catch ev e s)) = [].
Proof.
  destruct (fatal e) eqn:Hf.
  - destruct (dbClient s) as [c|] eqn:Hd.
    + rewrite (query_catch_fatal ev e s c) by assumption. split; reflexivity.
    + unfold query_catch, bind, log, emit. rewrite Hf.
      unfold detached, set_isConnected, bind, emit.
      rewrite connectDB_when_idle by (cbn; auto). split; reflexivity.
  - rewrite query_catch_other by assumption. split; reflexivity.
Qed.

(** Every way through the handler. *)
Lemma api_query_cases ev body outcome s :
  (isConnected s = false
   /\ api_query ev body outcome s =
        ([], s, [Respond 503 {[ "error" := VBool true;
                                "message" := VStr "Database not connected" ]}]))
  \/ (isConnected s = true /\ destructure body = None
      /\ api_query ev body outcome s =
           ([], s, [Log (QueryError no_body); Log (ErrorDetails no_body);
                    Respond 500 (failure_body ev no_body)]))
  \/ (exists text params,
        isConnected s = true /\ destructure body = Some (text, params)
        /\ truthy text = false
        /\ api_query ev body outcome s =
             ([], s, [Respond 400 {[ "error" := VBool true;
                                     "message" := VStr "Query text is required" ]}]))
  \/ (exists text params,
        isConnected s = true /\ destructure body = Some (text, params)
        /\ truthy text = true /\ dbClient s = None
        /\ api_query ev body outcome s =
             ([], s, [Log (ExecutingQuery text); Log (QueryParameters params);
                      Log (QueryError no_client); Log (ErrorDetails no_client);
                      Respond 500 (failure_body ev no_client)]))
  \/ (exists text params c res,
        isConnected s = true /\ destructure body = Some (text, params)
        /\ truthy text = true /\ dbClient s = Some c
        /\ outcome = Fulfilled res
        /\ api_query ev body outcome s =
             ([], s, [Log (ExecutingQuery text); Log (QueryParameters params);
                      ClientQuery c text params; Log QueryExecuted;
                      Respond 200 (query_response res)]))
  \/ (exists text params c e,
        isConnected s = true /\ destructure body = Some (text, params)
        /\ truthy text = true /\ dbClient s = Some c
        /\ outcome = Rejected e /\ fatal e = false
        /\ api_query ev body outcome s =
             ([], s, [Log (ExecutingQuery text); Log (QueryParameters params);
                      ClientQuery c text params;
                      Log (QueryError e); Log (ErrorDetails e);
                      Respond 500 (failure_body ev e)]))
  \/ (exists text params c e,
        isConnected s = true /\ destructure body = Some (text, params)
        /\ truthy text = true /\ dbClient s = Some c
        /\ outcome = Rejected e /\ fatal e = true
        /\ api_query ev body outcome s =
             ([AwaitEnd c],
              {| dbClient := Some c; isConnected := false;
                 connectionRetries := connectionRetries s;
                 clients := clients s |},
              [Log (ExecutingQuery text); Log (QueryParameters params);
               ClientQuery c text params;
               Log (QueryError e); Log (ErrorDetails e);
               Detached; Log ClosingExisting; ClientEnd c;
               Respond 500 (failure_body ev e)])).
Proof.
  destruct (isConnected s) eqn:Hc.
  2: { left. split; [reflexivity|]. apply api_query_disconnected, Hc. }
  right. destruct (destructure body) as [[text params]|] eqn:Hb.
  2: { left. do 2 (split; [first [reflexivity | assumption]|]).
       unfold api_query, bind, read. rewrite Hc, Hb. cbn [negb].
       apply (query_catch_other ev no_body s). reflexivity. }
  right. destruct (truthy text) eqn:Ht.
  2: { left. exists text, params. do 3 (split; [first [reflexivity | assumption]|]).
       apply (api_query_falsy_text ev body text params); assumption. }
  right. destruct (dbClient s) as [c|] eqn:Hd.
  2: { left. exists text, params. do 4 (split; [first [reflexivity | assumption]|]).
       unfold api_query, bind, read, log, emit.
       rewrite Hc, Hb, Ht. cbn [negb]. rewrite Hd.
       unfold no_client.
       rewrite (query_catch_other ev (TypeError _) s) by reflexivity.
       reflexivity. }
  right. destruct outcome as [res|e].
  { left. exists text, params, c, res. do 5 (split; [first [reflexivity | assumption]|]).
    unfold api_query, bind, read, log, emit.
    rewrite Hc, Hb, Ht. cbn [negb]. rewrite Hd. reflexivity. }
  right. rewrite (api_query_rejected ev body text params e s c) by assumption.
  destruct (fatal e) eqn:Hf.
  - right. exists text, params, c, e. do 6 (split; [first [reflexivity | assumption]|]).
    rewrite (query_catch_fatal ev e s c) by assumption. reflexivity.
  - left. exists text, params, c, e. do 6 (split; [first [reflexivity | assumption]|]).
    rewrite (query_catch_other ev e s) by assumption. reflexivity.
Qed.

(** X5. Every query request is answered exactly once, and the status
    follows this order of checks: 503 when [isConnected] is false,
    whatever the body; otherwise 500 when the body cannot be destructured;
    otherwise 400 when [text] is missing or falsy; otherwise 200 when the
    query is issued and fulfilled, and 500 when it is rejected or there is
    no client to issue it on. *)
Theorem query_status (ev : environment) (body : jsval)
    (outcome : settled result) (s : state) :
  map fst (responses (effects (api_query ev body outcome s))) =
    [if negb (isConnected s) then 503
     else match destructure body with
          | None => 500
          | Some (text, _) =>
              if negb (truthy text) then 400
              else match dbClient s, outcome with
                   | Some _, Fulfilled _ => 200
                   | _, _ => 500
                   end
          end].
Proof.
  destruct (api_query_cases ev body outcome s)
    as [(Hc & ->)
       | [(Hc & Hb & ->)
         | [(text & params & Hc & Hb & Ht & ->)
           | [(text & params & Hc & Hb & Ht & Hd & ->)
             | [(text & params & c & res & Hc & Hb & Ht & Hd & -> & ->)
               | [(text & params & c & e & Hc & Hb & Ht & Hd & -> & Hf & ->)
                 | (text & params & c & e & Hc & Hb & Ht & Hd & -> & Hf & ->)
    ]]]]]];
    rewrite Hc; try rewrite Hb; try rewrite Ht; try rewrite Hd; reflexivity.
Qed.

Lemma api_query_footprint ev body outcome s :
  let r := api_query ev body outcome s in
  dbClient (after r) = dbClient s
  /\ connectionRetries (after r) = connectionRetries s
  /\ clients (after r) = clients s
  /\ (isConnected (after r) = true -> isConnected s = true)
  /\ created (effects r) = []
  /\ attempted (effects r) = []
  /\ delays (effects r) = []
  /\ length (queries (effects r)) <= 1
  /\ length (responses (effects r)) = 1
  /\ (isConnected (after r) <> isConnected s ->
      exists e,
        outcome = Rejected e /\ fatal e = true
        /\ length (queries (effects r)) = 1
        /\ length (value r) = 1).
Proof.
  intros r. subst r.
  destruct (api_query_cases ev body outcome s)
    as [(Hc & ->)
       | [(Hc & Hb & ->)
         | [(text & params & Hc & Hb & Ht & ->)
           | [(text & params & Hc & Hb & Ht & Hd & ->)
             | [(text & params & c & res & Hc & Hb & Ht & Hd & -> & ->)
               | [(text & params & c & e & Hc & Hb & Ht & Hd & -> & Hf & ->)
                 | (text & params & c & e & Hc & Hb & Ht & Hd & -> & Hf & ->)
    ]]]]]];
    cbn [value after effects fst snd dbClient connectionRetries clients
           isConnected];
    (do 3 (split; [first [reflexivity | congruence]|]));
    (split; [congruence|]);
    (do 3 (split; [reflexivity|]));
    (split; [cbn; lia|]); (split; [reflexivity|]);
    intros Hne; try congruence.
  exists e. repeat split; assumption.
Qed.

(** X6. What a query request can change: it never assigns [dbClient] or
    [connectionRetries], never sets [isConnected] to true, creates and
    connects no client and starts no timer, issues at most one query and
    sends exactly one response. It clears [isConnected] only when its
    one query was rejected with a fatal code, and then leaves exactly one
    call of [connectDB] in flight. *)
Theorem query_footprint (ev : environment) (body : jsval)
    (outcome : settled result) (s : state) :
  let r := api_query ev body outcome s in
  dbClient (after r) = dbClient s
  /\ connectionRetries (after r) = connectionRetries s
  /\ clients (after r) = clients s
  /\ (isConnected (after r) = true -> isConnected s = true)
  /\ created (effects r) = []
  /\ attempted (effects r) = []
  /\ delays (effects r) = []
  /\ length (queries (effects r)) <= 1
  /\ length (responses (effects r)) = 1
  /\ (isConnected (after r) <> isConnected s ->
      exists e,
        outcome = Rejected e /\ fatal e = true
        /\ length (queries (effects r)) = 1
        /\ length (value r) = 1).
Proof. apply api_query_footprint. Qed.

(** X7. A query that was executed and rejected with an error whose code
    is neither [ECONNRESET] nor [57P01]: the variables are untouched,
    [connectDB] is not called and no client is closed; the one response
    is 500 with the error's message and code. *)
Theorem nonfatal_query_error (ev : environment) (body text params : jsval)
    (e : error) (s : state) (c : client) :
  isConnected s = true -> dbClient s = Some c ->
  destructure body = Some (text, params) -> truthy text = true ->
  fatal e = false ->
  let r := api_query ev body (Rejected e) s in
  after r = s
  /\ value r = []
  /\ reconnects (effects r) = 0
  /\ ended (effects r) = []
  /\ queries (effects r) = [(c, text, params)]
  /\ exists b,
       responses (effects r) = [(500, b)]
       /\ b !! "error" = Some (VBool true)
       /\ b !! "message" = Some (message e)
       /\ b !! "code" = Some (code e).
Proof.
  intros Hc Hd Hb Ht Hf r. subst r.
  rewrite (api_query_rejected ev body text params e s c) by assumption.
  rewrite (query_catch_other ev e s) by assumption.
  cbn [value after effects fst snd app].
  do 5 (split; [reflexivity|]).
  eexists. split; [reflexivity|]. repeat split; reflexivity.
Qed.

Lemma nonfatal_query_error_witness :
  let syntax := {| code := VStr "42601"; message := VStr "syntax error";
                   stack := VStr "error: syntax error" |} in
  let r := api_query ∅ select_tenders (Rejected syntax) connected_state in
  after r = connected_state
  /\ reconnects (effects r) = 0
  /\ map fst (responses (effects r)) = [500].
Proof.
  intros syntax r.
  destruct (nonfatal_query_error ∅ select_tenders
              (VStr "SELECT * FROM tenders") VUndefined syntax
              connected_state 0)
    as (Ha & _ & Hn & _ & _ & b & Hr & _);
    [reflexivity | reflexivity | reflexivity | reflexivity | reflexivity |].
  fold r in Ha, Hn, Hr.
  split; [exact Ha|]. split; [exact Hn|]. rewrite Hr. reflexivity.
Defined.

Lemma lookup_map {A B} (g : A -> B) (l : list A) i x :
  l !! i = Some x -> map g l !! i = Some (g x).
Proof.
  revert i. induction l as [|y l IH]; intros [|i] H; try discriminate H.
  - injection H as ->. reflexivity.
  - cbn. apply IH, H.
Qed.

(** X8. A query that was executed and fulfilled: the text and the
    parameters reach the client as the request gave them, the variables
    are untouched and [connectDB] is not called. The one response is 200
    with the result's [rows] and [rowCount]; its [fields] is undefined
    when the result has none, and otherwise has one entry per field of
    the result, in order, holding exactly [name] and [dataType], the
    latter being the field's [dataTypeID]. *)
Theorem query_success (ev : environment) (body text params : jsval)
    (res : result) (s : state) (c : client) :
  isConnected s = true -> dbClient s = Some c ->
  destructure body = Some (text, params) -> truthy text = true ->
  let r := api_query ev body (Fulfilled res) s in
  after r = s
  /\ value r = []
  /\ reconnects (effects r) = 0
  /\ queries (effects r) = [(c, text, params)]
  /\ exists b,
       responses (effects r) = [(200, b)]
       /\ b !! "rows" = Some (rows res)
       /\ b !! "rowCount" = Some (rowCount res)
       /\ match fields res with
          | None => b !! "fields" = Some VUndefined
          | Some fs =>
              exists l,
                b !! "fields" = Some (VArr l)
                /\ length l = length fs
                /\ forall i f, fs !! i = Some f ->
                     exists o,
                       l !! i = Some (VObj o)
                       /\ dom o = {[ "name"; "dataType" ]}
                       /\ o !! "name" = Some (prop f "name")
                       /\ o !! "dataType" = Some (prop f "dataTypeID")
          end.
Proof.
  intros Hc Hd Hb Ht r. subst r.
  destruct (api_query_cases ev body (Fulfilled res) s)
    as [(Hc' & _)
       | [(_ & Hb' & _)
         | [(text' & params' & _ & Hb' & Ht' & _)
           | [(text' & params' & _ & _ & _ & Hd' & _)
             | [(text' & params' & c' & res' & _ & Hb' & _ & Hd' & Hres & ->)
               | [(text' & params' & c' & e & _ & _ & _ & _ & Hres & _)
                 | (text' & params' & c' & e & _ & _ & _ & _ & Hres & _)
    ]]]]]]; try congruence.
  assert (text' = text /\ params' = params /\ c' = c /\ res' = res)
    as (-> & -> & -> & ->) by (repeat split; congruence).
  cbn [value after effects fst snd].
  do 4 (split; [reflexivity|]).
  eexists. split; [reflexivity|]. do 2 (split; [reflexivity|]).
  unfold query_response. destruct (fields res) as [fs|]; [|reflexivity].
  eexists. split; [reflexivity|]. split; [apply length_map|].
  intros i f Hf.
  exists {[ "name" := prop f "name"; "dataType" := prop f "dataTypeID" ]}.
  split; [exact (lookup_map _ fs i f Hf)|].
  split; [|split; reflexivity].
  rewrite dom_insert_L, dom_singleton_L. reflexivity.
Qed.

Lemma query_success_witness :
  let one := {| rows := VArr [VObj {[ "id" := VNum 1 ]}];
                rowCount := VNum 1;
                fields := Some [ {[ "name" := VStr "id";
                                    "dataTypeID" := VNum 23;
                                    "tableID" := VNum 16384 ]} ] |} in
  let r := api_query ∅ select_tenders (Fulfilled one) connected_state in
  after r = connected_state
  /\ queries (effects r) =
       [(0, VStr "SELECT * FROM tenders", VUndefined)]
  /\ map fst (responses (effects r)) = [200].
Proof.
  intros one r.
  destruct (query_success ∅ select_tenders (VStr "SELECT * FROM tenders")
              VUndefined one connected_state 0)
    as (Ha & _ & _ & Hq & b & Hr & _);
    [reflexivity | reflexivity | reflexivity | reflexivity |].
  fold r in Ha, Hq, Hr.
  split; [exact Ha|]. split; [exact Hq|]. rewrite Hr. reflexivity.
Defined.

(** X9. The error's stack reaches the caller only in development. With
    [NODE_ENV] unset or different from ['development'], no response of
    the query handler carries a [detail] other than undefined; with
    [NODE_ENV] equal to ['development'], the 500 response to a rejected
    query carries the error's stack as [detail]. *)
Theorem stack_only_in_development (ev : environment) (body : jsval)
    (outcome : settled result) (s : state) :
  let r := api_query ev body outcome s in
  (ev !! "NODE_ENV" <> Some "development" ->
   forall st b v,
     In (st, b) (responses (effects r)) -> b !! "detail" = Some v ->
     v = VUndefined)
  /\ (ev !! "NODE_ENV" = Some "development" ->
      forall e, outcome = Rejected e ->
        forall st b,
          In (st, b) (responses (effects r)) -> st = 500 ->
          queries (effects r) <> [] ->
          b !! "detail" = Some (stack e)).
Proof.
  intros r. subst r.
  assert (Hdetail : forall e,
             ev !! "NODE_ENV" <> Some "development" ->
             failure_body ev e !! "detail" = Some VUndefined).
  { intros e Hev. unfold failure_body, getenv, is_str.
    destruct (ev !! "NODE_ENV") as [mode|]; [|reflexivity].
    destruct (String.eqb_spec mode "development") as [->|]; [congruence|].
    reflexivity. }
  assert (Hstack : forall e,
             ev !! "NODE_ENV" = Some "development" ->
             failure_body ev e !! "detail" = Some (stack e)).
  { intros e Hev. unfold failure_body, getenv, is_str. rewrite Hev.
    reflexivity. }
  destruct (api_query_cases ev body outcome s)
    as [(Hc & ->)
       | [(Hc & Hb & ->)
         | [(text & params & Hc & Hb & Ht & ->)
           | [(text & params & Hc & Hb & Ht & Hd & ->)
             | [(text & params & c & res & Hc & Hb & Ht & Hd & -> & ->)
               | [(text & params & c & e & Hc & Hb & Ht & Hd & -> & Hf & ->)
                 | (text & params & c & e & Hc & Hb & Ht & Hd & -> & Hf & ->)
    ]]]]]];
    cbn [effects snd responses queries flat_map app In]; split;
    try (intros Hev st b v [Hin|[]] Hv; injection Hin as <- <-;
         first [ rewrite Hdetail in Hv by assumption; congruence
               | discriminate Hv ]);
    try (intros Hev e' He' st b [Hin|[]] Hst Hq; injection Hin as <- <-;
         first [ discriminate Hst | congruence
               | injection He' as <-; apply Hstack, Hev ]).
Qed.

Lemma stack_only_in_development_witness :
  let r := api_query {[ "NODE_ENV" := "production" ]} select_tenders
             (Rejected reset) connected_state in
  exists b,
    responses (effects r) = [(500, b)]
    /\ b !! "detail" = Some VUndefined.
Proof.
  intros r.
  destruct (stack_only_in_development {[ "NODE_ENV" := "production" ]}
              select_tenders (Rejected reset) connected_state) as [Hprod _].
  fold r in Hprod. eexists. split; [reflexivity|].
  match goal with
  | |- ?b !! "detail" = Some VUndefined =>
      destruct (b !! "detail") as [v|] eqn:Hv; [|discriminate Hv];
        f_equal; apply (Hprod ltac:(discriminate) 500 b v);
        [left; reflexivity | exact Hv]
  end.
Defined.

(** * Further properties of the health handler *)

Lemma api_health_footprint cx f probe s :
  let r := api_health cx f probe s in
  after r = s
  /\ value r = []
  /\ length (responses (effects r)) = 1
  /\ created (effects r) = []
  /\ attempted (effects r) = []
  /\ ended (effects r) = []
  /\ delays (effects r) = []
  /\ queries (effects r) =
       match f with
       | ThrowsBuilding _ => []
       | _ =>
           if isConnected s then
             match dbClient s with
             | Some c => [(c, VStr "SELECT 1", VUndefined)]
             | None => []
             end
           else []
       end.
Proof.
  intros r. subst r.
  unfold api_health, health_probe, bind, read, ret, emit, health_fallback.
  destruct f as [|e|e]; [| repeat split |];
    (destruct (isConnected s) eqn:Hc;
     [destruct (dbClient s) as [c|] eqn:Hd;
      [destruct probe as [v|e']|];
      try rewrite health_probe_failed_eq by assumption
     |]);
    repeat split.
Qed.

(** X10. A health request only reads. Whatever the state, the probe's
    outcome and the handler's own fault, it leaves the variables as they
    were and no call of [connectDB] in flight; it creates, connects and
    closes no client and starts no timer; it sends exactly one response;
    and the only query it issues is the one [SELECT 1], on the client
    [dbClient] holds while [isConnected] is true. In particular a failed
    probe reconnects nothing: [isConnected] is still true when
    [connectDB] is called, so that call returns at once. *)
Theorem health_is_read_only (cx : context) (f : fault)
    (probe : settled unit) (s : state) :
  let r := api_health cx f probe s in
  after r = s
  /\ value r = []
  /\ length (responses (effects r)) = 1
  /\ created (effects r) = []
  /\ attempted (effects r) = []
  /\ ended (effects r) = []
  /\ delays (effects r) = []
  /\ queries (effects r) =
       match f with
       | ThrowsBuilding _ => []
       | _ =>
           if isConnected s then
             match dbClient s with
             | Some c => [(c, VStr "SELECT 1", VUndefined)]
             | None => []
             end
           else []
       end.
Proof. apply api_health_footprint. Qed.
